(** * luoxk/browsers: a pool of chromedp browser sessions

    A shallow embedding of [browser_instance.go] (the session, its close
    state machine, the context monitor and the remote-call bridge) and of
    the controller file (the registry of sessions and its identifier
    counter), together with the properties of the lifecycle core.

    The chromedp library is outside the repository.  It is taken as an
    interface ([chromedp.Driver]) over an abstract driver state [D]; every
    general statement below holds for every implementation of it.  Go
    pointers to [BrowserInstance] are addresses into a heap of the model, so
    that the registry and its callers share one object per session.  A
    method that holds a mutex for its whole body ([Close], [Closed], the
    controller methods) is one atomic state transformer; callers, monitor
    goroutines and the browsers interleave between such steps ([exec],
    [run]). *)

From Stdlib Require Import ZArith Lia Ascii DecimalString.
From stdpp Require Import base gmap list strings sorting.

(** ** Go values *)

(** A Go [error], observed through its [Error()] method. *)
Record error := errors_New { error_Error : string }.

(** [fmt.Errorf] and [log.Printf] with [%d]: decimal rendering of an [int]. *)
Definition fmt_d (n : Z) : string := NilZero.string_of_int (Z.to_int n).

(** [%v] applied to an error prints its message. *)
Definition fmt_v (e : error) : string := error_Error e.

(** The double quote character of the Go raw strings. *)
Definition dquote : string := String "034"%char EmptyString.

(** Go's [int] on a 64-bit target: [nextID++] wraps around. *)
Definition int_wrap (z : Z) : Z := ((z + 2 ^ 63) mod 2 ^ 64 - 2 ^ 63)%Z.
Definition int_max : Z := (2 ^ 63 - 1)%Z.

(** Identities of the objects that chromedp hands out. *)
Definition CtxId := nat.       (* a context.Context made by chromedp.NewContext *)
Definition Allocator := nat.   (* the allocator context of NewExecAllocator *)
Definition BrowserRef := nat.  (* a *chromedp.Context *)
Definition Handler := nat.     (* a func(event interface{}) *)
Definition loc := nat.         (* the address of a BrowserInstance *)

(** [image.Point] *)
Record Point := { X : Z; Y : Z }.

(** [BrowserResponse], the result carrier of [SabaFetch]. *)
Record BrowserResponse := {
  Data : string;
  Error : string;
  Token : string
}.

(** [func (this *BrowserResponse) Err() error] *)
Definition Err (this : BrowserResponse) : option error :=
  if (0 <? Z.of_nat (String.length (Error this)))%Z
  then Some (errors_New (Error this))
  else None.

Module network.
(** The fields of [network.Cookie] that the program reads. *)
Record Cookie := {
  Name : string; Value : string; Path : string; Domain : string;
  Secure : bool; HTTPOnly : bool
}.
End network.

Module http.
(** The fields of [http.Cookie] that the program writes. *)
Record Cookie := {
  Name : string; Value : string; Path : string; Domain : string;
  Secure : bool; HttpOnly : bool
}.
End http.

(** ** The chromedp interface *)

Module chromedp.

Inductive FlagValue :=
| FlagBool (b : bool)
| FlagString (s : string).

(** An [ExecAllocatorOption], by the call that builds it.  [Preset]
    stands for an entry this program never builds itself (the entries of
    [DefaultExecAllocatorOptions]). *)
Inductive ExecAllocatorOption :=
| ExecPath (path : string)
| Flag (name : string) (value : FlagValue)
| UserDataDir (dir : string)
| DisableGPU
| WindowSize (width height : Z)
| ProxyServer (proxy : string)
| Preset (n : nat).

(** What the program calls in chromedp and cdproto.  Each primitive is a
    transformer of the driver state; its outcome is the driver's choice.
    [Evaluate] receives the address of the caller's map: it returns the
    map as it left it, next to its error. *)
Class Driver (D : Type) := {
  DefaultExecAllocatorOptions : list ExecAllocatorOption;
  NewExecAllocator : list ExecAllocatorOption -> D -> Allocator * D;
  NewContext : Allocator -> D -> CtxId * D;
  (* the two CancelFuncs returned by NewContext and NewExecAllocator *)
  cancel : CtxId -> D -> D;
  cancelAlloc : Allocator -> D -> D;
  FromContext : CtxId -> D -> option BrowserRef;
  (* chromedp.Run before its first action: it may refuse the context *)
  enter : CtxId -> D -> option error * D;
  Navigate : string -> CtxId -> D -> option error * D;
  fetch_Enable : CtxId -> D -> option error * D;
  ListenTarget : CtxId -> Handler -> D -> D;
  Cancel : CtxId -> D -> option error * D;
  (* whether the channel ctx.Done() is closed *)
  Done : CtxId -> D -> bool;
  network_GetCookies : CtxId -> D -> (list network.Cookie * option error) * D;
  Evaluate_string :
    string -> bool -> CtxId -> gmap string string -> D ->
    (option error * gmap string string) * D;
  Evaluate_BrowserResponse :
    string -> bool -> CtxId -> gmap string (option BrowserResponse) -> D ->
    (option error * gmap string (option BrowserResponse)) * D
}.

End chromedp.

(** ** The calls the program makes, in order *)

Inductive Event :=
| EvNewExecAllocator (opts : list chromedp.ExecAllocatorOption)
| EvNewContext (a : Allocator)
| EvRun (ctx : CtxId)
| EvNavigate (ctx : CtxId) (url : string)
| EvFetchEnable (ctx : CtxId)
| EvListenTarget (ctx : CtxId) (h : Handler)
| EvGetCookies (ctx : CtxId)
| EvEvaluate (ctx : CtxId) (expression : string) (awaitPromise : bool)
| EvChromedpCancel (ctx : CtxId)
| EvCancel (ctx : CtxId)
| EvCancelAlloc (a : Allocator)
| EvCancelFunc (id : Z)
| EvLog (line : string)
| EvPrintln (line : string).

(** ** Types of the controller file *)

(** [type BrowserOptions struct] *)
Record BrowserOptions := {
  Path : string;
  Fingerprint : string;
  Proxy : string;
  UserDir : string;
  Headless : bool;
  HookFunc : option (CtxId -> Handler);
  WindowSize : option Point;
  DisableGPU : bool
}.

(** [type BrowserController struct]: [map[int]*BrowserInstance] and the
    counter; its mutex is the atomicity of the five methods. *)
Record BrowserController := {
  instances : gmap Z loc;
  nextID : Z
}.

(** The order in which one [for ... range bc.instances] visits the entries:
    Go leaves it open, so it is any enumeration of the map. *)
Record RangeOrder := {
  range :> gmap Z loc -> list (Z * loc);
  range_perm : forall m, range m ≡ₚ map_to_list m
}.

Section Browsers.

Context {D : Type} `{!chromedp.Driver D}.

(** A [context.CancelFunc] stored in a session: the closure that
    [LaunchBrowser] builds, or any other function of the caller of
    [NewBrowserInstance]. *)
Inductive CancelFunc :=
| LaunchCancel (ctx : CtxId) (alloc : Allocator)
| OtherCancel (f : D -> D).

(** [type BrowserInstance struct]; the two mutexes are the atomicity of the
    functions that take them. *)
Record BrowserInstance := {
  ID : Z;
  Browser : option BrowserRef;
  Ctx : CtxId;
  Cancel : option CancelFunc;
  closed : bool
}.

(** The state of the process: the driver, the calls made so far, the
    allocated sessions, and the sessions whose [monitorContext] goroutine is
    still waiting on [<-bi.Ctx.Done()]. *)
Record World := {
  drv : D;
  trace : list Event;
  heap : list BrowserInstance;
  monitors : gset loc
}.

Definition M (A : Type) : Type := World -> A * World.

Definition ret {A} (a : A) : M A := fun w => (a, w).

Definition bind {A B} (m : M A) (k : A -> M B) : M B :=
  fun w => let '(a, w') := m w in k a w'.

Notation "'let*' x ':=' m 'in' k" := (bind m (fun x => k))
  (at level 10, x name, m at level 100, k at level 200).
Notation "'do' m 'then' k" := (bind m (fun _ => k))
  (at level 10, m at level 100, k at level 200).

Definition emit (ev : Event) : M unit := fun w =>
  (tt, {| drv := drv w; trace := trace w ++ [ev];
          heap := heap w; monitors := monitors w |}).

(** A call into the driver, recorded. *)
Definition call {A} (ev : Event) (f : D -> A * D) : M A := fun w =>
  let '(a, d) := f (drv w) in
  (a, {| drv := d; trace := trace w ++ [ev];
         heap := heap w; monitors := monitors w |}).

Definition call_ (ev : Event) (f : D -> D) : M unit :=
  call ev (fun d => (tt, f d)).

Definition log_Printf (line : string) : M unit := emit (EvLog line).
Definition log_Println (line : string) : M unit := emit (EvLog line).
Definition fmt_Println (line : string) : M unit := emit (EvPrintln line).

(** [bi.Cancel()] *)
Definition call_CancelFunc (id : Z) (f : CancelFunc) : M unit :=
  match f with
  | LaunchCancel ctx alloc =>
      do call_ (EvCancel ctx) (chromedp.cancel ctx) then
      call_ (EvCancelAlloc alloc) (chromedp.cancelAlloc alloc)
  | OtherCancel g => call_ (EvCancelFunc id) g
  end.

(** *** chromedp.Run

    [chromedp.Run(ctx, actions...)] runs the actions in order and returns
    the first error.  An action may write a variable of the enclosing
    function: [S] is the type of that variable. *)
Definition Action (S : Type) : Type := CtxId -> S -> M (option error * S).

Fixpoint Tasks {S} (actions : list (Action S)) (ctx : CtxId) (s : S)
  : M (option error * S) :=
  match actions with
  | [] => ret (None, s)
  | a :: rest =>
      let* r := a ctx s in
      match r with
      | (Some e, s') => ret (Some e, s')
      | (None, s') => Tasks rest ctx s'
      end
  end.

Definition Run {S} (ctx : CtxId) (actions : list (Action S)) (s : S)
  : M (option error * S) :=
  let* err := call (EvRun ctx) (chromedp.enter ctx) in
  match err with
  | Some e => ret (Some e, s)
  | None => Tasks actions ctx s
  end.

(** [chromedp.Navigate(url)] and [fetch.Enable()] as actions. *)
Definition Navigate {S} (url : string) : Action S := fun ctx s =>
  let* err := call (EvNavigate ctx url) (chromedp.Navigate url ctx) in
  ret (err, s).

Definition fetch_Enable {S} : Action S := fun ctx s =>
  let* err := call (EvFetchEnable ctx) (chromedp.fetch_Enable ctx) in
  ret (err, s).

(** ** browser_instance.go *)

(** The object behind a pointer. *)
Definition deref (bi : loc) (w : World) : option BrowserInstance := heap w !! bi.

(** [bi.closed = true] *)
Definition mark_closed (o : BrowserInstance) : BrowserInstance :=
  {| ID := ID o; Browser := Browser o; Ctx := Ctx o; Cancel := Cancel o;
     closed := true |}.

Definition set_closed (bi : loc) : M unit := fun w =>
  match heap w !! bi with
  | Some o =>
      (tt, {| drv := drv w; trace := trace w;
              heap := <[bi := mark_closed o]> (heap w);
              monitors := monitors w |})
  | None => (tt, w)
  end.

(** [NewBrowserInstance]: the object is allocated and its monitor goroutine
    is started. *)
Definition NewBrowserInstance (id : Z) (browser : option BrowserRef)
    (ctx : CtxId) (cancel : option CancelFunc) : M loc := fun w =>
  let instance := length (heap w) in
  (instance,
   {| drv := drv w; trace := trace w;
      heap := heap w ++ [{| ID := id; Browser := browser; Ctx := ctx;
                            Cancel := cancel; closed := false |}];
      monitors := {[instance]} ∪ monitors w |}).

(** [func (bi *BrowserInstance) Close()].  A receiver that was never
    allocated does not occur (Go has no dangling pointer); the model leaves
    the world as it is there, here and in the methods below. *)
Definition Close (bi : loc) : M unit := fun w =>
  match deref bi w with
  | None => (tt, w)
  | Some o =>
      if closed o then (tt, w)
      else
        (let* err := call (EvChromedpCancel (Ctx o)) (chromedp.Cancel (Ctx o)) in
         do match err with
            | Some e =>
                log_Printf ("Failed to cancel chromedp context for browser instance "
                            +:+ fmt_d (ID o) +:+ ": " +:+ fmt_v e)
            | None => ret tt
            end then
         do match Cancel o with
            | Some f => call_CancelFunc (ID o) f
            | None => ret tt
            end then
         do set_closed bi then
         log_Printf ("Browser instance " +:+ fmt_d (ID o) +:+ " has been closed")) w
  end.

(** A goroutine that returned. *)
Definition retire (bi : loc) (w : World) : World :=
  {| drv := drv w; trace := trace w; heap := heap w;
     monitors := monitors w ∖ {[bi]} |}.

(** [monitorContext]: the goroutine started by [NewBrowserInstance].  It
    can take its step only once [bi.Ctx.Done()] is closed; the step is a
    call of [Close], after which the goroutine is over.  [None]: the
    goroutine is blocked, or there is none. *)
Definition monitorContext (bi : loc) (w : World) : option World :=
  match deref bi w with
  | None => None
  | Some o =>
      if decide (bi ∈ monitors w) then
        if chromedp.Done (Ctx o) (drv w) then
          Some (retire bi (snd (Close bi w)))
        else None
      else None
  end.

(** [func (bi *BrowserInstance) Context()] *)
Definition Context_ (bi : loc) : M CtxId := fun w =>
  (do fmt_Println "get Context" then
   ret (match deref bi w with Some o => Ctx o | None => 0 end)) w.

(** [func (bi *BrowserInstance) Closed() bool] (the spec's [IsClosed]) *)
Definition Closed (bi : loc) : M bool := fun w =>
  (match deref bi w with Some o => closed o | None => false end, w).

(** [WaitFor] *)
Definition WaitFor {S} (bi : loc) (cb : Action S) (s : S) : M (option error * S) :=
  let* ctx := Context_ bi in
  Run ctx [cb] s.

(** [chromedp.Evaluate(expression, &data, opts...)] as an action on the
    map [data]. *)
Definition Evaluate_string (expression : string) (awaitPromise : bool)
  : Action (gmap string string) := fun ctx data =>
  call (EvEvaluate ctx expression awaitPromise)
       (chromedp.Evaluate_string expression awaitPromise ctx data).

Definition Evaluate_BrowserResponse (expression : string) (awaitPromise : bool)
  : Action (gmap string (option BrowserResponse)) := fun ctx data =>
  call (EvEvaluate ctx expression awaitPromise)
       (chromedp.Evaluate_BrowserResponse expression awaitPromise ctx data).

(** The [b.WaitFor(...)] statement of [CallJs2Str]: its error, and the map
    [data] after it. *)
Definition CallJs2Str_eval (b : loc) (eval : string)
  : M (option error * gmap string string) :=
  let data : gmap string string := ∅ in
  WaitFor b
    (Evaluate_string
       ("(function() {return {" +:+ dquote +:+ "dst" +:+ dquote +:+ ":"
        +:+ eval +:+ "};})()") false) data.

(** [CallJs2Str]: the error of [WaitFor] is dropped. *)
Definition CallJs2Str (b : loc) (eval : string) : M string :=
  let* r := CallJs2Str_eval b eval in
  let data := snd r in
  match data !! "dst" with
  | Some val => ret val
  | None => ret ""
  end.

(** A pre-navigation callback of [Goto]. *)
Definition Hook : Type := CtxId -> D -> option error * D.

Fixpoint beforeNavigate_loop (beforeNavigate : list Hook) (ctx : CtxId) (d : D)
  : option error * D :=
  match beforeNavigate with
  | [] => (None, d)
  | cb :: rest =>
      match cb ctx d with
      | (Some err, d') => (Some err, d')
      | (None, d') => beforeNavigate_loop rest ctx d'
      end
  end.

Definition errClosed : error := errors_New "浏览器已关闭".

(** [Goto] *)
Definition Goto (bi : loc) (url : string) (beforeNavigate : list Hook)
  : M (option error) :=
  let* c := Closed bi in
  if (c : bool) then ret (Some errClosed)
  else fun w =>
    let ctx := match deref bi w with Some o => Ctx o | None => 0 end in
    (let* r := Run ctx
            [ (fun ctx (s : unit) => fun w =>
                 let '(err, d) := beforeNavigate_loop beforeNavigate ctx (drv w) in
                 ((err, s), {| drv := d; trace := trace w; heap := heap w;
                               monitors := monitors w |}));
              Navigate url ] tt in
     ret (fst r)) w.

(** [convertCookies] *)
Definition convertCookies (netCookies : list network.Cookie) : list http.Cookie :=
  fold_left
    (fun httpCookies netCookie =>
       httpCookies ++
       [{| http.Name := network.Name netCookie;
           http.Value := network.Value netCookie;
           http.Path := network.Path netCookie;
           http.Domain := network.Domain netCookie;
           http.Secure := network.Secure netCookie;
           http.HttpOnly := network.HTTPOnly netCookie |}])
    netCookies [].

(** [GetCookies]; a nil slice is the empty list. *)
Definition GetCookies (bi : loc) : M (list http.Cookie * option error) :=
  let* c := Closed bi in
  if (c : bool) then ret ([], Some errClosed)
  else fun w =>
    let ctx := match deref bi w with Some o => Ctx o | None => 0 end in
    (let* r := Run ctx
            [ fun ctx (cookies : list http.Cookie) =>
                let* r := call (EvGetCookies ctx) (chromedp.network_GetCookies ctx) in
                match r with
                | (_, Some err) => ret (Some err, cookies)
                | (cks, None) => ret (None, convertCookies cks)
                end ] [] in
     match r with
     | (Some err, _) =>
         ret ([], Some (errors_New ("获取 cookies 失败: " +:+ fmt_v err)))
     | (None, cookies) => ret (cookies, None)
     end) w.

(** The [err := chromedp.Run(...)] statement of [SabaFetch]: its error, and
    the map [data] after it. *)
Definition SabaFetch_eval (bi : loc) (eval : string)
  : M (option error * gmap string (option BrowserResponse)) := fun w =>
  let ctx := match deref bi w with Some o => Ctx o | None => 0 end in
  let data : gmap string (option BrowserResponse) := ∅ in
  Run ctx
    [ Evaluate_BrowserResponse
        ("(async function() {var c = " +:+ eval +:+ ";return {" +:+ dquote
         +:+ "dst" +:+ dquote +:+ ":c};})()") true ] data w.

(** [SabaFetch]; the result is a pointer, [None] is nil. *)
Definition SabaFetch (bi : loc) (eval : string) : M (option BrowserResponse) :=
  let* r := SabaFetch_eval bi eval in
  let '(err, data) := r in
  match data !! "dst" with
  | Some val => ret val
  | None =>
      let b := {| Data := ""; Error := "nil Response"; Token := "" |} in
      let b := match err with
               | Some e => {| Data := Data b; Error := error_Error e; Token := Token b |}
               | None => b
               end in
      ret (Some b)
  end.

(** ** The controller file *)

(** [NewBrowserController] *)
Definition NewBrowserController : BrowserController :=
  {| instances := ∅; nextID := 1 |}.

(** The configuration that [LaunchBrowser] builds before it creates the
    allocator (the [append] calls at the head of the function). *)
Definition allocatorOpts (options : BrowserOptions)
  : list chromedp.ExecAllocatorOption :=
  let allocatorOpts :=
    chromedp.DefaultExecAllocatorOptions (D := D) ++
    [ chromedp.ExecPath (Path options);
      chromedp.Flag "headless" (chromedp.FlagBool (Headless options)) ] in
  let allocatorOpts :=
    if decide (UserDir options ≠ "")
    then allocatorOpts ++ [chromedp.UserDataDir (UserDir options)]
    else allocatorOpts in
  let allocatorOpts :=
    if DisableGPU options
    then allocatorOpts ++ [chromedp.DisableGPU]
    else allocatorOpts in
  let allocatorOpts :=
    match WindowSize options with
    | Some p => allocatorOpts ++ [chromedp.WindowSize (X p) (Y p)]
    | None => allocatorOpts
    end in
  let allocatorOpts :=
    if decide (Proxy options ≠ "")
    then allocatorOpts ++ [chromedp.ProxyServer (Proxy options)]
    else allocatorOpts in
  let allocatorOpts :=
    if decide (Fingerprint options ≠ "")
    then allocatorOpts ++
         [chromedp.Flag "fp" (chromedp.FlagString (Fingerprint options))]
    else allocatorOpts in
  allocatorOpts.

(** The [if options.HookFunc != nil] block of [LaunchBrowser]; [Some err] is
    its early [return nil, err]. *)
Definition LaunchBrowser_hook (options : BrowserOptions) (ctx : CtxId)
  : M (option error) :=
  match HookFunc options with
  | Some hook =>
      let* r := Run ctx [fetch_Enable] tt in
      match fst r with
      | Some err =>
          do log_Println (fmt_v err) then
          ret (Some err)
      | None =>
          do call_ (EvListenTarget ctx (hook ctx))
                   (chromedp.ListenTarget ctx (hook ctx)) then
          ret None
      end
  | None => ret None
  end.

(** [LaunchBrowser] *)
Definition LaunchBrowser (options : BrowserOptions) (bc : BrowserController)
  : M ((option loc * option error) * BrowserController) :=
  let allocatorOpts := allocatorOpts options in
  let* allocCtx := call (EvNewExecAllocator allocatorOpts)
                        (chromedp.NewExecAllocator allocatorOpts) in
  let* ctx := call (EvNewContext allocCtx) (chromedp.NewContext allocCtx) in
  let* r := Run ctx [Navigate "about:blank"] tt in
  match fst r with
  | Some err =>
      do call_ (EvCancel ctx) (chromedp.cancel ctx) then
      do call_ (EvCancelAlloc allocCtx) (chromedp.cancelAlloc allocCtx) then
      ret ((None, Some err), bc)
  | None =>
      let* browser := (fun w => (chromedp.FromContext ctx (drv w), w)) in
      let* stop := LaunchBrowser_hook options ctx in
      match stop with
      | Some err => ret ((None, Some err), bc)
      | None =>
          let id := nextID bc in
          let nextID' := int_wrap (nextID bc + 1) in
          let* instance :=
            NewBrowserInstance id browser ctx (Some (LaunchCancel ctx allocCtx)) in
          ret ((Some instance, None),
               {| instances := <[id := instance]> (instances bc);
                  nextID := nextID' |})
      end
  end.

Definition errNotExist (id : Z) : error :=
  errors_New ("browser instance with ID " +:+ fmt_d id +:+ " does not exist").

(** [CloseBrowser] *)
Definition CloseBrowser (id : Z) (bc : BrowserController)
  : M (option error * BrowserController) :=
  match instances bc !! id with
  | None => ret (Some (errNotExist id), bc)
  | Some instance =>
      do Close instance then
      ret (None, {| instances := delete id (instances bc); nextID := nextID bc |})
  end.

(** [GetBrowserInstance] *)
Definition GetBrowserInstance (id : Z) (bc : BrowserController)
  : option loc * option error :=
  match instances bc !! id with
  | None => (None, Some (errNotExist id))
  | Some instance => (Some instance, None)
  end.

(** The body of the loop of [CloseAllBrowsers] over the entries in the order
    of the iteration; only the entry being visited is deleted, so every
    entry is visited. *)
Fixpoint CloseAllBrowsers_loop (entries : list (Z * loc)) (m : gmap Z loc)
  : M (gmap Z loc) :=
  match entries with
  | [] => ret m
  | (id, instance) :: rest =>
      do Close instance then
      CloseAllBrowsers_loop rest (delete id m)
  end.

(** [CloseAllBrowsers] *)
Definition CloseAllBrowsers (order : RangeOrder) (bc : BrowserController)
  : M BrowserController :=
  let* m := CloseAllBrowsers_loop (order (instances bc)) (instances bc) in
  ret {| instances := m; nextID := nextID bc |}.

(** [GetBrowserCount] *)
Definition GetBrowserCount (bc : BrowserController) : Z :=
  Z.of_nat (size (instances bc)).

(** ** Reading a trace *)

Definition count_events (p : Event -> bool) (t : list Event) : nat :=
  length (List.filter p t).

(** [chromedp.Cancel(bi.Ctx)] *)
Definition is_chromedp_Cancel (ev : Event) : bool :=
  match ev with EvChromedpCancel _ => true | _ => false end.

(** An invocation of a release function: [cancel()], which is also the
    first statement of the closure of [LaunchBrowser], or a [CancelFunc] of
    another origin. *)
Definition is_release (ev : Event) : bool :=
  match ev with EvCancel _ | EvCancelFunc _ => true | _ => false end.

(** [cancelAlloc()] *)
Definition is_cancelAlloc (ev : Event) : bool :=
  match ev with EvCancelAlloc _ => true | _ => false end.

(** A call of [chromedp.Run]. *)
Definition is_Run (ev : Event) : bool :=
  match ev with EvRun _ => true | _ => false end.

(** The events of [w'] that were not yet in [w]. *)
Definition since (w w' : World) : list Event :=
  drop (length (trace w)) (trace w').

(** [n] calls of [Close] in a row. *)
Definition closes (n : nat) (bi : loc) (w : World) : World :=
  Nat.iter n (fun x => snd (Close bi x)) w.

(** The browsers and the parent contexts act on their own. *)
Definition outside (f : D -> D) (w : World) : World :=
  {| drv := f (drv w); trace := trace w; heap := heap w;
     monitors := monitors w |}.

(** ** Frame conditions *)

(** A computation that allocates no session, changes none and starts or
    ends no goroutine. *)
Definition keeps_heap {A} (m : M A) : Prop :=
  forall w, heap (snd (m w)) = heap w /\ monitors (snd (m w)) = monitors w.

(** From [w] to [w']: every session is still there, with its fields, and a
    flag that was set is still set. *)
Definition evolves (w w' : World) : Prop :=
  forall l o, deref l w = Some o ->
    exists o', deref l w' = Some o' /\ ID o' = ID o /\ Ctx o' = Ctx o
               /\ Cancel o' = Cancel o /\ (closed o = true -> closed o' = true).

(** Every session that the registry holds is allocated. *)
Definition registered_allocated (bc : BrowserController) (w : World) : Prop :=
  forall id instance, instances bc !! id = Some instance ->
    is_Some (deref instance w).

(** ** Histories

    What callers, monitor goroutines and the browsers themselves can do to
    one controller and its sessions, one atomic step at a time. *)
Inductive Cmd :=
| CmdLaunch (options : BrowserOptions)
| CmdClose (id : Z)
| CmdGet (id : Z)
| CmdCloseAll (order : RangeOrder)
| CmdCount
| CmdSessionClose (bi : loc)
| CmdGoto (bi : loc) (url : string) (beforeNavigate : list Hook)
| CmdGetCookies (bi : loc)
| CmdSabaFetch (bi : loc) (eval : string)
| CmdCallJs2Str (bi : loc) (eval : string)
| CmdMonitor (bi : loc)
| CmdOutside (f : D -> D).

(** The identifier of the session that a successful launch returned. *)
Definition issued (r : option loc) (w : World) : option Z :=
  match r with
  | Some instance => ID <$> deref instance w
  | None => None
  end.

(** One step; the result is the handle issued by the step, if it is a
    successful launch. *)
Definition exec (c : Cmd) (bc : BrowserController) (w : World)
  : option Z * BrowserController * World :=
  match c with
  | CmdLaunch options =>
      let '(r, bc', w') := LaunchBrowser options bc w in
      (issued (fst r) w', bc', w')
  | CmdClose id =>
      let '(_, bc', w') := CloseBrowser id bc w in (None, bc', w')
  | CmdGet _ => (None, bc, w)
  | CmdCloseAll order =>
      let '(bc', w') := CloseAllBrowsers order bc w in (None, bc', w')
  | CmdCount => (None, bc, w)
  | CmdSessionClose bi => (None, bc, snd (Close bi w))
  | CmdGoto bi url hooks => (None, bc, snd (Goto bi url hooks w))
  | CmdGetCookies bi => (None, bc, snd (GetCookies bi w))
  | CmdSabaFetch bi eval => (None, bc, snd (SabaFetch bi eval w))
  | CmdCallJs2Str bi eval => (None, bc, snd (CallJs2Str bi eval w))
  | CmdMonitor bi =>
      (None, bc, match monitorContext bi w with Some w' => w' | None => w end)
  | CmdOutside f => (None, bc, outside f w)
  end.

(** A history from a given state: the handles issued, in order, and the
    final state. *)
Fixpoint run (cs : list Cmd) (bc : BrowserController) (w : World)
  : list Z * BrowserController * World :=
  match cs with
  | [] => ([], bc, w)
  | c :: rest =>
      let '(h, bc', w') := exec c bc w in
      let '(hs, bc'', w'') := run rest bc' w' in
      (match h with Some id => id :: hs | None => hs end, bc'', w'')
  end.

(** The handles issued along a history. *)
Definition handles (cs : list Cmd) (bc : BrowserController) (w : World) : list Z :=
  fst (fst (run cs bc w)).

(** [first; first + 1; ...], [n] of them. *)
Fixpoint consecutive (first : Z) (n : nat) : list Z :=
  match n with
  | O => []
  | S n' => first :: consecutive (first + 1) n'
  end.

(** The process before anything was launched. *)
Definition boot (d : D) : World :=
  {| drv := d; trace := []; heap := []; monitors := ∅ |}.

End Browsers.

Arguments CancelFunc D : clear implicits.
Arguments BrowserInstance D : clear implicits.
Arguments World D : clear implicits.
Arguments Cmd D : clear implicits.
Arguments Hook D : clear implicits.
Arguments M D A : clear implicits.
Arguments Action D S : clear implicits.
Arguments keeps_heap {D A} m.

(** ** The earlier version of the session file

    The same struct without the monitor goroutine; [Close] returns an
    [error] and the flag is read by [IsClosed]. *)
Module Legacy.
Section Legacy.

Context {D : Type} `{!chromedp.Driver D}.

Notation "'let*' x ':=' m 'in' k" := (bind m (fun x => k))
  (at level 10, x name, m at level 100, k at level 200).
Notation "'do' m 'then' k" := (bind m (fun _ => k))
  (at level 10, m at level 100, k at level 200).

(** [NewBrowserInstance] *)
Definition NewBrowserInstance (id : Z) (browser : option BrowserRef)
    (ctx : CtxId) (cancel : option (CancelFunc D)) : M D loc := fun w =>
  (length (heap w),
   {| drv := drv w; trace := trace w;
      heap := heap w ++ [{| ID := id; Browser := browser; Ctx := ctx;
                            Cancel := cancel; closed := false |}];
      monitors := monitors w |}).

(** [func (bi *BrowserInstance) Close() error] *)
Definition Close (bi : loc) : M D (option error) := fun w =>
  match deref bi w with
  | None => (None, w)
  | Some o =>
      if closed o then (None, w)
      else
        (let* err := call (EvChromedpCancel (Ctx o)) (chromedp.Cancel (Ctx o)) in
         do match err with
            | Some e =>
                log_Printf ("Failed to cancel chromedp context for browser instance "
                            +:+ fmt_d (ID o) +:+ ": " +:+ fmt_v e)
            | None => ret tt
            end then
         do match Cancel o with
            | Some f => call_CancelFunc (ID o) f
            | None => ret tt
            end then
         do set_closed bi then
         do log_Printf ("Browser instance " +:+ fmt_d (ID o) +:+ " has been closed") then
         ret None) w
  end.

(** [func (bi *BrowserInstance) IsClosed() bool] *)
Definition IsClosed (bi : loc) : M D bool := fun w =>
  (match deref bi w with Some o => closed o | None => false end, w).

End Legacy.
End Legacy.

(** ** A scripted driver

    A deterministic implementation of the interface for the concrete runs
    below: it hands out fresh identities, remembers which contexts were
    cancelled and how often each release function ran, and answers probes,
    interception requests and evaluations from its script. *)
Module Stub.

Record State := {
  fresh : nat;
  done : list CtxId;
  cancels : list CtxId;
  releases : list Allocator;
  probe_error : option error;
  enable_error : option error;
  eval_error : option error;
  eval_strings : gmap string string;
  eval_responses : gmap string (option BrowserResponse)
}.

Definition canceled : error := errors_New "context canceled".

Definition take (d : State) : nat * State :=
  (fresh d,
   {| fresh := S (fresh d); done := done d; cancels := cancels d;
      releases := releases d; probe_error := probe_error d;
      enable_error := enable_error d; eval_error := eval_error d;
      eval_strings := eval_strings d; eval_responses := eval_responses d |}).

Definition finish (ctx : CtxId) (d : State) : State :=
  {| fresh := fresh d; done := ctx :: done d; cancels := cancels d;
     releases := releases d; probe_error := probe_error d;
     enable_error := enable_error d; eval_error := eval_error d;
     eval_strings := eval_strings d; eval_responses := eval_responses d |}.

Definition cancel (ctx : CtxId) (d : State) : State :=
  {| fresh := fresh d; done := ctx :: done d; cancels := ctx :: cancels d;
     releases := releases d; probe_error := probe_error d;
     enable_error := enable_error d; eval_error := eval_error d;
     eval_strings := eval_strings d; eval_responses := eval_responses d |}.

Definition cancelAlloc (a : Allocator) (d : State) : State :=
  {| fresh := fresh d; done := done d; cancels := cancels d;
     releases := a :: releases d; probe_error := probe_error d;
     enable_error := enable_error d; eval_error := eval_error d;
     eval_strings := eval_strings d; eval_responses := eval_responses d |}.

Definition is_done (ctx : CtxId) (d : State) : bool :=
  bool_decide (ctx ∈ done d).

(** A context that is done refuses every run. *)
Definition enter (ctx : CtxId) (d : State) : option error * State :=
  if is_done ctx d then (Some canceled, d) else (None, d).

#[global] Instance driver : chromedp.Driver State := {|
  chromedp.DefaultExecAllocatorOptions :=
    [chromedp.Preset 0; chromedp.Preset 1; chromedp.Preset 2];
  chromedp.NewExecAllocator := fun _ d => take d;
  chromedp.NewContext := fun _ d => take d;
  chromedp.cancel := cancel;
  chromedp.cancelAlloc := cancelAlloc;
  chromedp.FromContext := fun ctx _ => Some ctx;
  chromedp.enter := enter;
  chromedp.Navigate := fun _ _ d => (probe_error d, d);
  chromedp.fetch_Enable := fun _ d => (enable_error d, d);
  chromedp.ListenTarget := fun _ _ d => d;
  chromedp.Cancel := fun ctx d => (None, finish ctx d);
  chromedp.Done := is_done;
  chromedp.network_GetCookies := fun _ d => (([], None), d);
  chromedp.Evaluate_string := fun _ _ _ data d =>
    ((eval_error d, eval_strings d ∪ data), d);
  chromedp.Evaluate_BrowserResponse := fun _ _ _ data d =>
    ((eval_error d, eval_responses d ∪ data), d)
|}.

(** A driver on which every call succeeds and evaluations produce no
    value. *)
Definition healthy : State :=
  {| fresh := 0; done := []; cancels := []; releases := [];
     probe_error := None; enable_error := None; eval_error := None;
     eval_strings := ∅; eval_responses := ∅ |}.

Definition with_probe_error (e : error) (d : State) : State :=
  {| fresh := fresh d; done := done d; cancels := cancels d;
     releases := releases d; probe_error := Some e;
     enable_error := enable_error d; eval_error := eval_error d;
     eval_strings := eval_strings d; eval_responses := eval_responses d |}.

Definition with_enable_error (e : error) (d : State) : State :=
  {| fresh := fresh d; done := done d; cancels := cancels d;
     releases := releases d; probe_error := probe_error d;
     enable_error := Some e; eval_error := eval_error d;
     eval_strings := eval_strings d; eval_responses := eval_responses d |}.

Definition with_eval (e : option error) (strs : gmap string string)
    (resps : gmap string (option BrowserResponse)) (d : State) : State :=
  {| fresh := fresh d; done := done d; cancels := cancels d;
     releases := releases d; probe_error := probe_error d;
     enable_error := enable_error d; eval_error := e;
     eval_strings := strs; eval_responses := resps |}.

(** Launch options as in the test of the repository, with a Unix path. *)
Definition plain : BrowserOptions :=
  {| Path := "/bin/fake-browser"; Fingerprint := ""; Proxy := "";
     UserDir := ""; Headless := false; HookFunc := None;
     WindowSize := None; DisableGPU := false |}.

(** The same with an interception hook. *)
Definition hooked : BrowserOptions :=
  {| Path := "/bin/fake-browser"; Fingerprint := ""; Proxy := "";
     UserDir := ""; Headless := true; HookFunc := Some (fun ctx => ctx);
     WindowSize := None; DisableGPU := false |}.

(** Every option absent or empty. *)
Definition empty : BrowserOptions :=
  {| Path := ""; Fingerprint := ""; Proxy := ""; UserDir := "";
     Headless := false; HookFunc := None; WindowSize := None;
     DisableGPU := false |}.

(** Every option present. *)
Definition full : BrowserOptions :=
  {| Path := "/bin/fake-browser"; Fingerprint := "fp-1";
     Proxy := "socks5://127.0.0.1:1080"; UserDir := "/tmp/profile";
     Headless := true; HookFunc := Some (fun ctx => ctx);
     WindowSize := Some {| X := 800; Y := 600 |}; DisableGPU := true |}.

(** The enumeration of a map that stdpp computes, as a range order. *)
Definition in_order : RangeOrder :=
  {| range := map_to_list; range_perm := fun m => reflexivity _ |}.

(** One session launched on a healthy driver: it is at address 0, its
    handle is 1, its context is 1 and its allocator 0. *)
Definition launched : World State :=
  snd (LaunchBrowser plain NewBrowserController (boot healthy)).

Definition registry : BrowserController :=
  snd (fst (LaunchBrowser plain NewBrowserController (boot healthy))).

(** The same after the caller closed the session. *)
Definition released : World State := snd (Close 0 launched).

(** The same after the browser died instead: the context is done and nobody
    called [Close]. *)
Definition crashed : World State := outside (finish 1) launched.

(** The drivers of the two failing launches. *)
Definition probe_failure : error := errors_New "navigation failed".
Definition enable_failure : error := errors_New "fetch.enable failed".

(** An evaluation that stored the entry and then reported a decoding error
    for the rest of the object. *)
Definition decode_failure : error :=
  errors_New "json: cannot unmarshal number into Go value of type string".

Definition garbled : World State :=
  outside (with_eval (Some decode_failure) {["dst" := "abc"]} ∅) launched.

(** An expression with that effect: the object it builds has a string under
    "dst" and a number under "x". *)
Definition two_entries : string :=
  dquote +:+ "abc" +:+ dquote +:+ "," +:+ dquote +:+ "x" +:+ dquote +:+ ":2".

(** An evaluation that failed and stored nothing. *)
Definition failing : World State :=
  outside (with_eval (Some (errors_New "exception thrown")) ∅ ∅) launched.

(** An evaluation whose value is the empty string. *)
Definition blank : World State :=
  outside (with_eval None {["dst" := ""]} ∅) launched.

(** A process whose driver fails the probe navigation, and one whose driver
    fails [fetch.Enable]. *)
Definition probe_fails : World State := boot (with_probe_error probe_failure healthy).
Definition enable_fails : World State := boot (with_enable_error enable_failure healthy).

(** Three sessions launched. *)
Definition three : list (Cmd State) :=
  [CmdLaunch plain; CmdLaunch hooked; CmdLaunch full].

(** A history: three launches, a close, a close-all, a monitor, one more
    launch. *)
Definition history : list (Cmd State) :=
  [ CmdLaunch plain; CmdLaunch hooked; CmdClose 1; CmdLaunch full;
    CmdOutside (finish 3); CmdMonitor 1; CmdCloseAll in_order; CmdCount;
    CmdLaunch plain ].

End Stub.

(** ** A second scripted driver

    The driver of [Stub] with three more knobs: the cookies that
    [network.GetCookies] returns and its error, and an error for
    [chromedp.Cancel]. *)
Module Jar.

Record State := {
  inner : Stub.State;
  cancel_error : option error;
  cookies : list network.Cookie;
  cookies_error : option error
}.

Definition lift (f : Stub.State -> Stub.State) (d : State) : State :=
  {| inner := f (inner d); cancel_error := cancel_error d;
     cookies := cookies d; cookies_error := cookies_error d |}.

Definition lift_result {A} (f : Stub.State -> A * Stub.State) (d : State)
  : A * State :=
  (fst (f (inner d)), lift (fun _ => snd (f (inner d))) d).

Definition driver : chromedp.Driver State := {|
  chromedp.DefaultExecAllocatorOptions := [chromedp.Preset 0];
  chromedp.NewExecAllocator := fun _ => lift_result Stub.take;
  chromedp.NewContext := fun _ => lift_result Stub.take;
  chromedp.cancel := fun ctx => lift (Stub.cancel ctx);
  chromedp.cancelAlloc := fun a => lift (Stub.cancelAlloc a);
  chromedp.FromContext := fun ctx _ => Some ctx;
  chromedp.enter := fun ctx => lift_result (Stub.enter ctx);
  chromedp.Navigate := fun _ _ d => (Stub.probe_error (inner d), d);
  chromedp.fetch_Enable := fun _ d => (Stub.enable_error (inner d), d);
  chromedp.ListenTarget := fun _ _ d => d;
  chromedp.Cancel := fun ctx d => (cancel_error d, lift (Stub.finish ctx) d);
  chromedp.Done := fun ctx d => Stub.is_done ctx (inner d);
  chromedp.network_GetCookies := fun _ d => ((cookies d, cookies_error d), d);
  chromedp.Evaluate_string := fun _ _ _ data d =>
    ((Stub.eval_error (inner d), Stub.eval_strings (inner d) ∪ data), d);
  chromedp.Evaluate_BrowserResponse := fun _ _ _ data d =>
    ((Stub.eval_error (inner d), Stub.eval_responses (inner d) ∪ data), d)
|}.

Definition session_cookie : network.Cookie :=
  {| network.Name := "sid"; network.Value := "42"; network.Path := "/";
     network.Domain := "example.org"; network.Secure := true;
     network.HTTPOnly := true |}.

Definition theme_cookie : network.Cookie :=
  {| network.Name := "theme"; network.Value := "dark"; network.Path := "/app";
     network.Domain := "example.org"; network.Secure := false;
     network.HTTPOnly := false |}.

(** A healthy driver with two cookies in the jar. *)
Definition full : State :=
  {| inner := Stub.healthy; cancel_error := None;
     cookies := [session_cookie; theme_cookie]; cookies_error := None |}.

(** The same with a [network.GetCookies] that fails. *)
Definition broken : State :=
  {| inner := Stub.healthy; cancel_error := None; cookies := [];
     cookies_error := Some (errors_New "cookies unavailable") |}.

(** The same with a [chromedp.Cancel] that fails. *)
Definition stubborn : State :=
  {| inner := Stub.healthy;
     cancel_error := Some (errors_New "context deadline exceeded");
     cookies := []; cookies_error := None |}.

(** One session launched on each of them; as in [Stub.launched] it is at
    address 0 with handle 1, context 1 and allocator 0. *)
Definition launched (d : State) : World State :=
  snd (@LaunchBrowser State driver Stub.plain NewBrowserController (boot d)).

(** Pre-navigation callbacks: one that succeeds and leaves a mark in the
    driver (a fresh identity is taken), one that fails. *)
Definition hook_ok : Hook State := fun _ d => (None, snd (lift_result Stub.take d)).
Definition hook_error : error := errors_New "login required".
Definition hook_fails : Hook State := fun _ d => (Some hook_error, d).

End Jar.

(** ** More scripted worlds *)

Module Scene.

(** An evaluation that decoded a response under "dst" and still reported an
    error. *)
Definition answer : BrowserResponse :=
  {| Data := "payload"; Error := ""; Token := "t-1" |}.

Definition answered : World Stub.State :=
  outside (Stub.with_eval (Some Stub.decode_failure) ∅ {["dst" := Some answer]})
          Stub.launched.

(** An evaluation whose "dst" is JSON null. *)
Definition null_answer : World Stub.State :=
  outside (Stub.with_eval None ∅ {["dst" := None]}) Stub.launched.

(** A session made by the earlier [NewBrowserInstance] on a fresh process,
    and its context then ending on its own. *)
Definition legacy : World Stub.State :=
  snd (Legacy.NewBrowserInstance 1 (Some 1) 1 None (boot Stub.healthy)).

(** Two launches, the first with the interception hook. *)
Definition two : list (Cmd Stub.State) :=
  [CmdLaunch Stub.hooked; CmdLaunch Stub.plain].

Definition two_registry : BrowserController :=
  snd (fst (run two NewBrowserController (boot Stub.healthy))).

Definition two_world : World Stub.State :=
  snd (run two NewBrowserController (boot Stub.healthy)).

(** An evaluation that failed with an error whose message is empty. *)
Definition silent : World Stub.State :=
  outside (Stub.with_eval (Some (errors_New "")) ∅ ∅) Stub.launched.

(** The two sessions of [two], the first one closed by a caller that holds
    its pointer; both are still registered. *)
Definition half_closed : World Stub.State := snd (Close 0 two_world).

(** A history with a launch, a launch that fails at the probe, a browser
    that dies and its monitor, and a caller closing the session it holds. *)
Definition eventful : list (Cmd Stub.State) :=
  [ CmdLaunch Stub.plain;
    CmdOutside (Stub.with_probe_error Stub.probe_failure);
    CmdLaunch Stub.plain;
    CmdOutside (Stub.finish 1); CmdMonitor 0; CmdSessionClose 0; CmdCount ].

End Scene.

(** ** Invariants of the registry and of the goroutines *)

Section Invariants.

Context {D : Type} `{!chromedp.Driver D}.

(** The registry as histories keep it: the counter is positive, every key
    was issued (it lies between 1 and the counter), and the session stored
    under a key is allocated and carries that key as its [ID]. *)
Definition registry_ok (bc : BrowserController) (w : World D) : Prop :=
  (0 < nextID bc)%Z
  /\ forall id instance, instances bc !! id = Some instance ->
       (1 <= id < nextID bc)%Z
       /\ exists o, deref instance w = Some o /\ ID o = id.

(** Only allocated sessions have a monitor. *)
Definition monitors_allocated (w : World D) : Prop :=
  forall bi, bi ∈ monitors w -> bi < length (heap w).

(** The conversion of one cookie, as the loop body of [convertCookies]
    writes it. *)
Definition convertCookie (netCookie : network.Cookie) : http.Cookie :=
  {| http.Name := network.Name netCookie;
     http.Value := network.Value netCookie;
     http.Path := network.Path netCookie;
     http.Domain := network.Domain netCookie;
     http.Secure := network.Secure netCookie;
     http.HttpOnly := network.HTTPOnly netCookie |}.

(** The calls of the release function stored in a session, and what they do
    to the driver. *)
Definition release_events (o : BrowserInstance D) : list Event :=
  match Cancel o with
  | Some (LaunchCancel ctx alloc) => [EvCancel ctx; EvCancelAlloc alloc]
  | Some (OtherCancel _) => [EvCancelFunc (ID o)]
  | None => []
  end.

Definition release_effect (o : BrowserInstance D) (d : D) : D :=
  match Cancel o with
  | Some (LaunchCancel ctx alloc) => chromedp.cancelAlloc alloc (chromedp.cancel ctx d)
  | Some (OtherCancel g) => g d
  | None => d
  end.

(** The allocator and the context that the driver hands to a launch that
    starts in [w]: the results of [chromedp.NewExecAllocator] on the
    configuration and of [chromedp.NewContext] on that allocator. *)
Definition launch_alloc (options : BrowserOptions) (w : World D) : Allocator :=
  fst (chromedp.NewExecAllocator (allocatorOpts options) (drv w)).

Definition launch_ctx (options : BrowserOptions) (w : World D) : CtxId :=
  fst (chromedp.NewContext (launch_alloc options w)
         (snd (chromedp.NewExecAllocator (allocatorOpts options) (drv w)))).

(** The three calls by which a session lets go of its browser. *)
Definition is_teardown (ev : Event) : bool :=
  is_chromedp_Cancel ev || is_release ev || is_cancelAlloc ev.

(** Whether the session at an address is allocated and open, and how many
    of the sessions of a list of entries are. *)
Definition is_open (w : World D) (bi : loc) : bool :=
  match deref bi w with
  | Some o => negb (closed o)
  | None => false
  end.

Fixpoint open_sessions (entries : list (Z * loc)) (w : World D) : nat :=
  match entries with
  | [] => 0
  | e :: rest => (if is_open w (snd e) then 1 else 0) + open_sessions rest w
  end.

(** A step that removes nothing from the registry. *)
Definition keeps_entries (c : Cmd D) : bool :=
  match c with
  | CmdClose _ | CmdCloseAll _ => false
  | _ => true
  end.

(** The world after calls that touched only the driver and the trace. *)
Definition after (w : World D) (d : D) (evs : list Event) : World D :=
  {| drv := d; trace := trace w ++ evs; heap := heap w; monitors := monitors w |}.

End Invariants.


(** * Properties of the session *)

Section Lifecycle.

Context {D : Type} `{!chromedp.Driver D}.

Implicit Types (w : World D) (bi : loc) (o : BrowserInstance D).

(** ** Close *)

Lemma Close_closed w bi o :
  deref bi w = Some o -> closed o = true -> Close bi w = (tt, w).
Proof. intros Hd Hc. unfold Close. by rewrite Hd, Hc. Qed.

Lemma Legacy_Close_closed w bi o :
  deref bi w = Some o -> closed o = true -> Legacy.Close bi w = (None, w).
Proof. intros Hd Hc. unfold Legacy.Close. by rewrite Hd, Hc. Qed.

Lemma Close_unallocated w bi : deref bi w = None -> Close bi w = (tt, w).
Proof. intros Hd. unfold Close. by rewrite Hd. Qed.

Ltac step_monad :=
  unfold bind, call_, call, log_Printf, log_Println, fmt_Println, emit, ret,
    set_closed; simpl.

(** What one call does to an open session: the driver moves, the trace gets
    [evs], the flag of the session is set, nothing else changes. *)
Lemma Close_open w bi o :
  deref bi w = Some o -> closed o = false ->
  exists d evs,
    Close bi w =
      (tt, {| drv := d; trace := trace w ++ evs;
              heap := <[bi := mark_closed o]> (heap w);
              monitors := monitors w |})
    /\ count_events is_chromedp_Cancel evs = 1
    /\ count_events is_release evs = (if Cancel o is Some _ then 1 else 0)
    /\ count_events is_cancelAlloc evs <= 1
    /\ count_events is_Run evs = 0.
Proof.
  intros Hd Hc. unfold Close. rewrite Hd, Hc. unfold deref in Hd.
  step_monad.
  destruct (chromedp.Cancel (Ctx o) (drv w)) as [[e|] d];
    destruct (Cancel o) as [[ctx alloc|g]|]; step_monad; rewrite Hd;
    simpl; rewrite <- ?app_assoc;
    eexists _, _; (split; [reflexivity|]);
    cbn; repeat split; lia.
Qed.

Lemma mark_closed_id o : closed o = true -> mark_closed o = o.
Proof. destruct o; simpl; intros ->; reflexivity. Qed.

(** The heap after a call, whatever the state of the session. *)
Lemma Close_heap w bi o :
  deref bi w = Some o ->
  heap (snd (Close bi w)) = <[bi := mark_closed o]> (heap w)
  /\ monitors (snd (Close bi w)) = monitors w.
Proof.
  intros Hd. destruct (closed o) eqn:Hc.
  - rewrite (Close_closed w bi o Hd Hc); simpl.
    rewrite mark_closed_id by done. split; [|done].
    symmetry. by apply list_insert_id.
  - destruct (Close_open w bi o Hd Hc) as (d & evs & -> & _). done.
Qed.

Lemma Close_deref_same w bi o :
  deref bi w = Some o -> deref bi (snd (Close bi w)) = Some (mark_closed o).
Proof.
  intros Hd. unfold deref. rewrite (proj1 (Close_heap w bi o Hd)).
  apply list_lookup_insert_eq. by eapply lookup_lt_Some.
Qed.

Lemma Close_deref_other w bi l :
  l <> bi -> deref l (snd (Close bi w)) = deref l w.
Proof.
  intros Hne. destruct (deref bi w) as [o|] eqn:Hd.
  - unfold deref. rewrite (proj1 (Close_heap w bi o Hd)).
    by apply list_lookup_insert_ne.
  - by rewrite Close_unallocated.
Qed.

(** After a call the flag is set. *)
Lemma Close_sets_flag w bi o :
  deref bi w = Some o -> fst (Closed bi (snd (Close bi w))) = true.
Proof.
  intros Hd. unfold Closed. simpl. by rewrite (Close_deref_same w bi o Hd).
Qed.

(** The two versions of [Close] act on the world in the same way; the
    earlier one adds a nil error. *)
Lemma Legacy_Close_Close w bi : Legacy.Close bi w = (None, snd (Close bi w)).
Proof.
  unfold Legacy.Close, Close. destruct (deref bi w) as [o|]; [|done].
  destruct (closed o); [done|]. step_monad.
  destruct (chromedp.Cancel (Ctx o) (drv w)) as [[e|] d];
    destruct (Cancel o) as [[ctx alloc|g]|]; step_monad;
    destruct (heap w !! bi); reflexivity.
Qed.

Lemma closes_succ n bi w : closes (S n) bi w = closes n bi (snd (Close bi w)).
Proof. unfold closes. by rewrite Nat.iter_succ_r. Qed.

Lemma closes_closed n w bi o :
  deref bi w = Some o -> closed o = true -> closes n bi w = w.
Proof.
  intros Hd Hc. induction n as [|n IH]; [done|].
  rewrite closes_succ, (Close_closed w bi o Hd Hc). exact IH.
Qed.

Lemma closes_once n w bi o :
  deref bi w = Some o -> closes (S n) bi w = snd (Close bi w).
Proof.
  intros Hd. rewrite closes_succ.
  apply (closes_closed n _ bi (mark_closed o)); [|done].
  by apply Close_deref_same.
Qed.

Lemma since_refl w : since w w = [].
Proof. unfold since. by rewrite drop_all. Qed.

Lemma count_events_nil p : count_events p [] = 0.
Proof. reflexivity. Qed.

(** The calls made by one [Close]: at most one of each kind. *)
Lemma Close_calls w bi o :
  deref bi w = Some o ->
  count_events is_chromedp_Cancel (since w (snd (Close bi w))) <= 1
  /\ count_events is_release (since w (snd (Close bi w))) <= 1
  /\ count_events is_cancelAlloc (since w (snd (Close bi w))) <= 1.
Proof.
  intros Hd. destruct (closed o) eqn:Hc.
  - rewrite (Close_closed w bi o Hd Hc); simpl. rewrite since_refl.
    rewrite !count_events_nil. lia.
  - destruct (Close_open w bi o Hd Hc) as (d & evs & -> & H1 & H2 & H3 & _).
    unfold since; simpl. rewrite drop_app_length.
    destruct (Cancel o); lia.
Qed.

(** ** What the operations leave alone *)

Lemma keeps_ret {A} (a : A) : keeps_heap (ret (D := D) a).
Proof. intros w. done. Qed.

Lemma keeps_bind {A B} (m : M D A) (k : A -> M D B) :
  keeps_heap m -> (forall a, keeps_heap (k a)) -> keeps_heap (bind m k).
Proof.
  intros Hm Hk w. unfold bind. specialize (Hm w).
  destruct (m w) as [a w1]. simpl in Hm. destruct Hm as [<- <-]. apply Hk.
Qed.

Lemma keeps_dep {A} (f : World D -> M D A) :
  (forall w0, keeps_heap (f w0)) -> keeps_heap (fun w => f w w).
Proof. intros Hf w. apply Hf. Qed.

Lemma keeps_call {A} ev (f : D -> A * D) : keeps_heap (call ev f).
Proof. intros w. unfold call. by destruct (f (drv w)). Qed.

Lemma keeps_call_ ev (f : D -> D) : keeps_heap (call_ ev f).
Proof. apply keeps_call. Qed.

Lemma keeps_emit ev : keeps_heap (emit (D := D) ev).
Proof. intros w. done. Qed.

Lemma keeps_Tasks {S} (actions : list (Action D S)) ctx s :
  (forall (a : Action D S) c s', a ∈ actions -> keeps_heap (a c s')) ->
  keeps_heap (Tasks actions ctx s).
Proof.
  revert s. induction actions as [|a rest IH]; intros s Ha; simpl.
  - apply keeps_ret.
  - apply keeps_bind; [apply Ha; left|].
    intros [[e|] s']; [apply keeps_ret|].
    apply IH. intros a' c s'' Hin. apply Ha. by right.
Qed.

Lemma keeps_Run {S} ctx (actions : list (Action D S)) s :
  (forall (a : Action D S) c s', a ∈ actions -> keeps_heap (a c s')) ->
  keeps_heap (Run ctx actions s).
Proof.
  intros Ha. unfold Run. apply keeps_bind; [apply keeps_call|].
  intros [e|]; [apply keeps_ret | by apply keeps_Tasks].
Qed.

Lemma keeps_Navigate {S} url ctx (s : S) : keeps_heap (Navigate (D := D) url ctx s).
Proof.
  unfold Navigate. apply keeps_bind; [apply keeps_call | intros; apply keeps_ret].
Qed.

Lemma keeps_fetch_Enable {S} ctx (s : S) : keeps_heap (fetch_Enable (D := D) ctx s).
Proof.
  unfold fetch_Enable. apply keeps_bind; [apply keeps_call | intros; apply keeps_ret].
Qed.

Lemma keeps_Closed bi : keeps_heap (Closed (D := D) bi).
Proof. intros w. done. Qed.

Lemma keeps_Context_ bi : keeps_heap (Context_ (D := D) bi).
Proof.
  unfold Context_. apply (keeps_dep (fun w0 => bind _ _)). intros w0.
  apply keeps_bind; [apply keeps_emit | intros; apply keeps_ret].
Qed.

Ltac keeps_singleton :=
  let Hin := fresh in
  intros ? ? ? Hin; apply list_elem_of_singleton in Hin; subst.

Lemma keeps_CallJs2Str_eval bi eval : keeps_heap (CallJs2Str_eval (D := D) bi eval).
Proof.
  unfold CallJs2Str_eval, WaitFor. apply keeps_bind; [apply keeps_Context_|].
  intros ctx. apply keeps_Run. keeps_singleton. apply keeps_call.
Qed.

Lemma keeps_CallJs2Str bi eval : keeps_heap (CallJs2Str (D := D) bi eval).
Proof.
  unfold CallJs2Str. apply keeps_bind; [apply keeps_CallJs2Str_eval|].
  intros [e data]; simpl. destruct (data !! _); apply keeps_ret.
Qed.

Lemma keeps_SabaFetch_eval bi eval : keeps_heap (SabaFetch_eval (D := D) bi eval).
Proof.
  unfold SabaFetch_eval. apply (keeps_dep (fun w0 => Run _ _ _)). intros w0.
  apply keeps_Run. keeps_singleton. apply keeps_call.
Qed.

Lemma keeps_SabaFetch bi eval : keeps_heap (SabaFetch (D := D) bi eval).
Proof.
  unfold SabaFetch. apply keeps_bind; [apply keeps_SabaFetch_eval|].
  intros [e data]. destruct (data !! _); apply keeps_ret.
Qed.

Lemma keeps_Goto bi url hooks : keeps_heap (Goto (D := D) bi url hooks).
Proof.
  unfold Goto. apply keeps_bind; [apply keeps_Closed|].
  intros [|]; [apply keeps_ret|].
  apply (keeps_dep (fun w0 => bind _ _)). intros w0.
  apply keeps_bind; [|intros; apply keeps_ret].
  apply keeps_Run. intros a c s' Hin.
  apply elem_of_cons in Hin as [->|Hin].
  - intros w. by destruct (beforeNavigate_loop hooks c (drv w)).
  - apply list_elem_of_singleton in Hin as ->. apply keeps_Navigate.
Qed.

Lemma keeps_GetCookies bi : keeps_heap (GetCookies (D := D) bi).
Proof.
  unfold GetCookies. apply keeps_bind; [apply keeps_Closed|].
  intros [|]; [apply keeps_ret|].
  apply (keeps_dep (fun w0 => bind _ _)). intros w0.
  apply keeps_bind.
  - apply keeps_Run. keeps_singleton.
    apply keeps_bind; [apply keeps_call|].
    intros [cks [e|]]; apply keeps_ret.
  - intros [[e|] cookies]; apply keeps_ret.
Qed.

Lemma keeps_LaunchBrowser_hook options ctx :
  keeps_heap (LaunchBrowser_hook (D := D) options ctx).
Proof.
  unfold LaunchBrowser_hook. destruct (HookFunc options) as [hook|]; [|apply keeps_ret].
  apply keeps_bind.
  - apply keeps_Run. keeps_singleton. apply keeps_fetch_Enable.
  - intros [[e|] u]; simpl.
    + apply keeps_bind; [apply keeps_emit | intros; apply keeps_ret].
    + apply keeps_bind; [apply keeps_call_ | intros; apply keeps_ret].
Qed.

(** ** Sessions persist *)

Lemma evolves_refl w : evolves w w.
Proof. intros l o Hl. exists o. done. Qed.

Lemma evolves_trans w1 w2 w3 : evolves w1 w2 -> evolves w2 w3 -> evolves w1 w3.
Proof.
  intros H12 H23 l o Hl.
  destruct (H12 l o Hl) as (o2 & Hl2 & Hi2 & Hc2 & Hf2 & Hk2).
  destruct (H23 l o2 Hl2) as (o3 & Hl3 & Hi3 & Hc3 & Hf3 & Hk3).
  exists o3. repeat split; try congruence. auto.
Qed.

Lemma evolves_same_heap w w' : heap w' = heap w -> evolves w w'.
Proof. intros Hh l o Hl. exists o. unfold deref in *. rewrite Hh. done. Qed.

Lemma keeps_evolves {A} (m : M D A) w : keeps_heap m -> evolves w (snd (m w)).
Proof. intros Hm. apply evolves_same_heap, Hm. Qed.

Lemma Close_evolves w bi : evolves w (snd (Close bi w)).
Proof.
  intros l o Hl. destruct (decide (l = bi)) as [->|Hne].
  - exists (mark_closed o). split; [by apply Close_deref_same|]. done.
  - exists o. rewrite Close_deref_other by done. done.
Qed.

Lemma NewBrowserInstance_evolves id browser ctx cancel w :
  evolves w (snd (NewBrowserInstance id browser ctx cancel w)).
Proof.
  intros l o Hl. exists o. split; [|done]. unfold deref in *; simpl.
  by apply lookup_app_l_Some.
Qed.

Lemma NewBrowserInstance_deref id browser ctx cancel w :
  deref (length (heap w)) (snd (NewBrowserInstance id browser ctx cancel w))
  = Some {| ID := id; Browser := browser; Ctx := ctx; Cancel := cancel;
            closed := false |}.
Proof. unfold deref; simpl. by rewrite list_lookup_middle. Qed.

Lemma retire_evolves bi w : evolves w (retire bi w).
Proof. by apply evolves_same_heap. Qed.

Lemma outside_evolves f w : evolves w (outside f w).
Proof. by apply evolves_same_heap. Qed.

Lemma monitorContext_evolves bi w w' : monitorContext bi w = Some w' -> evolves w w'.
Proof.
  unfold monitorContext. destruct (deref bi w) as [o|]; [|done].
  destruct (decide _); [|done]. destruct (chromedp.Done _ _); [|done].
  intros [= <-]. eapply evolves_trans; [apply Close_evolves | apply retire_evolves].
Qed.

(** ** The two outcomes of a launch *)

Lemma LaunchBrowser_cases options bc w :
  (exists err w',
     LaunchBrowser options bc w = ((None, Some err), bc, w')
     /\ heap w' = heap w /\ monitors w' = monitors w)
  \/ (exists browser ctx alloc w1,
        heap w1 = heap w /\ monitors w1 = monitors w
        /\ LaunchBrowser options bc w =
             ((Some (length (heap w)), None),
              {| instances := <[nextID bc := length (heap w)]> (instances bc);
                 nextID := int_wrap (nextID bc + 1) |},
              snd (NewBrowserInstance (nextID bc) browser ctx
                     (Some (LaunchCancel ctx alloc)) w1))).
Proof.
  unfold LaunchBrowser, bind.
  destruct (call (EvNewExecAllocator _) _ w) as [alloc w1] eqn:E1.
  destruct (call (EvNewContext alloc) _ w1) as [ctx w2] eqn:E2.
  destruct (Run ctx [Navigate "about:blank"] tt w2) as [[e u] w3] eqn:E3.
  assert (heap w3 = heap w /\ monitors w3 = monitors w) as [Hh3 Hm3].
  { pose proof (keeps_call (EvNewExecAllocator (allocatorOpts options))
                  (chromedp.NewExecAllocator (allocatorOpts options)) w) as K1.
    rewrite E1 in K1.
    pose proof (keeps_call (EvNewContext alloc) (chromedp.NewContext alloc) w1) as K2.
    rewrite E2 in K2.
    assert (keeps_heap (Run (D := D) ctx [Navigate "about:blank"] tt)) as K3.
    { apply keeps_Run. keeps_singleton. apply keeps_Navigate. }
    specialize (K3 w2). rewrite E3 in K3. simpl in *.
    destruct K1, K2, K3. split; congruence. }
  destruct e as [err|]; simpl.
  - left. eexists _, _. split; [reflexivity|]. simpl. done.
  - destruct (LaunchBrowser_hook options ctx w3) as [stop w4] eqn:E4.
    pose proof (keeps_LaunchBrowser_hook options ctx w3) as K4.
    rewrite E4 in K4. simpl in K4. destruct K4 as [Hh4 Hm4].
    destruct stop as [err|]; simpl.
    + left. eexists _, _. split; [reflexivity|]. split; congruence.
    + right. exists (chromedp.FromContext ctx (drv w3)), ctx, alloc, w4.
      split; [congruence|]. split; [congruence|].
      unfold NewBrowserInstance, ret; simpl. rewrite Hh4, Hh3. reflexivity.
Qed.

Lemma LaunchBrowser_evolves options bc w :
  evolves w (snd (LaunchBrowser options bc w)).
Proof.
  destruct (LaunchBrowser_cases options bc w)
    as [(err & w' & -> & Hh & _) | (browser & ctx & alloc & w1 & Hh & _ & ->)].
  - by apply evolves_same_heap.
  - simpl. eapply evolves_trans; [by apply (evolves_same_heap w w1)|].
    apply NewBrowserInstance_evolves.
Qed.

(** ** The loop of CloseAllBrowsers, unrolled *)

Lemma CloseAllBrowsers_loop_unfold (entries : list (Z * loc)) (m : gmap Z loc) w :
  CloseAllBrowsers_loop entries m w =
    (foldl (fun m e => delete (fst e) m) m entries,
     foldl (fun w e => snd (Close (snd e) w)) w entries).
Proof.
  revert m w. induction entries as [|[id instance] rest IH]; intros m w; [done|].
  simpl. unfold bind. destruct (Close instance w) as [[] w1] eqn:E.
  rewrite IH. done.
Qed.

Lemma foldl_delete_lookup (entries : list (Z * loc)) (m : gmap Z loc) k :
  foldl (fun m e => delete (fst e) m) m entries !! k =
    if decide (k ∈ entries.*1) then None else m !! k.
Proof.
  revert m. induction entries as [|[id instance] rest IH]; intros m.
  - cbn [foldl fmap list_fmap]. destruct (decide (k ∈ [])) as [Hin|]; [|done].
    by apply not_elem_of_nil in Hin.
  - cbn [foldl fmap list_fmap fst]. rewrite IH.
    destruct (decide (k ∈ rest.*1)) as [Hin|Hnin];
      destruct (decide (k ∈ id :: rest.*1)) as [Hin'|Hnin']; try done.
    + exfalso. apply Hnin'. by right.
    + apply elem_of_cons in Hin' as [->|?]; [|done]. apply lookup_delete_eq.
    + apply lookup_delete_ne. intros ->. apply Hnin'. left.
Qed.

Lemma foldl_Close_evolves (entries : list (Z * loc)) w :
  evolves w (foldl (fun w e => snd (Close (snd e) w)) w entries).
Proof.
  revert w. induction entries as [|e rest IH]; intros w; simpl.
  - apply evolves_refl.
  - eapply evolves_trans; [apply Close_evolves | apply IH].
Qed.

Lemma foldl_Close_closed (entries : list (Z * loc)) w id instance :
  (id, instance) ∈ entries -> is_Some (deref instance w) ->
  fst (Closed instance (foldl (fun w e => snd (Close (snd e) w)) w entries)) = true.
Proof.
  revert w. induction entries as [|e rest IH]; intros w Hin [o Ho].
  - by apply not_elem_of_nil in Hin.
  - apply elem_of_cons in Hin as [<-|Hin]; simpl.
    + pose proof (Close_deref_same w instance o Ho) as H1.
      destruct (foldl_Close_evolves rest _ _ _ H1) as (o' & Ho' & _ & _ & _ & Hc).
      unfold Closed; simpl. rewrite Ho'. by apply Hc.
    + apply IH; [done|].
      destruct (Close_evolves w (snd e) _ _ Ho) as (o' & Ho' & _). by exists o'.
Qed.

(** ** Histories keep sessions and set flags *)

Lemma CloseBrowser_evolves id bc w : evolves w (snd (CloseBrowser id bc w)).
Proof.
  unfold CloseBrowser. destruct (instances bc !! id) as [instance|].
  - unfold bind, ret. pose proof (Close_evolves w instance) as Hev.
    destruct (Close instance w) as [[] w1]. exact Hev.
  - apply evolves_refl.
Qed.

Lemma CloseAllBrowsers_evolves order bc w :
  evolves w (snd (CloseAllBrowsers order bc w)).
Proof.
  unfold CloseAllBrowsers, bind. rewrite CloseAllBrowsers_loop_unfold. simpl.
  apply foldl_Close_evolves.
Qed.

Lemma exec_evolves c bc w : evolves w (snd (exec c bc w)).
Proof.
  destruct c; simpl.
  - pose proof (LaunchBrowser_evolves options bc w) as Hev.
    destruct (LaunchBrowser options bc w) as [[r bc'] w']. exact Hev.
  - pose proof (CloseBrowser_evolves id bc w) as Hev.
    destruct (CloseBrowser id bc w) as [[r bc'] w']. exact Hev.
  - apply evolves_refl.
  - pose proof (CloseAllBrowsers_evolves order bc w) as Hev.
    destruct (CloseAllBrowsers order bc w) as [bc' w']. exact Hev.
  - apply evolves_refl.
  - apply Close_evolves.
  - apply keeps_evolves, keeps_Goto.
  - apply keeps_evolves, keeps_GetCookies.
  - apply keeps_evolves, keeps_SabaFetch.
  - apply keeps_evolves, keeps_CallJs2Str.
  - destruct (monitorContext bi w) as [w'|] eqn:E.
    + by eapply monitorContext_evolves.
    + apply evolves_refl.
  - apply outside_evolves.
Qed.

Lemma run_evolves cs bc w : evolves w (snd (run cs bc w)).
Proof.
  revert bc w. induction cs as [|c rest IH]; intros bc w; simpl.
  - apply evolves_refl.
  - pose proof (exec_evolves c bc w) as H1.
    destruct (exec c bc w) as [[h bc1] w1]. simpl in H1.
    pose proof (IH bc1 w1) as H2.
    destruct (run rest bc1 w1) as [[hs bc2] w2]. simpl in *.
    by eapply evolves_trans.
Qed.

(** A flag that is set stays set, whatever callers, monitors and browsers
    do next. *)
Lemma closed_forever cs bc w bi :
  fst (Closed bi w) = true -> fst (Closed bi (snd (run cs bc w))) = true.
Proof.
  unfold Closed; simpl. destruct (deref bi w) as [o|] eqn:Ho; [|done].
  intros Hc. destruct (run_evolves cs bc w bi o Ho) as (o' & -> & _ & _ & _ & Hk).
  by apply Hk.
Qed.

(** C2. [Close] is idempotent.  On a session whose flag is set, a call
    returns at once and leaves the whole world (driver, trace, heap,
    goroutines) as it was, and the earlier version returns a nil error.  Any
    number of calls in a row has the effect of the first one, so over all of
    them [chromedp.Cancel], [cancel()] or the stored release function, and
    [cancelAlloc()] are each called at most once; and after the first call,
    whatever callers, monitors and browsers do in between, one more call
    changes nothing. *)
Theorem Close_idempotent w bi o :
  deref bi w = Some o ->
  (closed o = true -> Close bi w = (tt, w) /\ Legacy.Close bi w = (None, w))
  /\ Legacy.Close bi w = (None, snd (Close bi w))
  /\ (forall n, closes (S n) bi w = snd (Close bi w))
  /\ (forall n,
        count_events is_chromedp_Cancel (since w (closes n bi w)) <= 1
        /\ count_events is_release (since w (closes n bi w)) <= 1
        /\ count_events is_cancelAlloc (since w (closes n bi w)) <= 1)
  /\ (forall cs bc,
        Close bi (snd (run cs bc (snd (Close bi w))))
        = (tt, snd (run cs bc (snd (Close bi w))))).
Proof.
  intros Hd. split; [|split; [|split; [|split]]].
  - intros Hc. split; [by eapply Close_closed | by eapply Legacy_Close_closed].
  - apply Legacy_Close_Close.
  - intros n. by eapply closes_once.
  - intros [|n].
    + unfold closes; simpl. rewrite since_refl, !count_events_nil. lia.
    + rewrite (closes_once n w bi o Hd). by eapply Close_calls.
  - intros cs bc.
    pose proof (Close_deref_same w bi o Hd) as H1.
    destruct (run_evolves cs bc _ _ _ H1) as (o' & Ho' & _ & _ & _ & Hk).
    apply (Close_closed _ bi o'); [exact Ho' | by apply Hk].
Qed.

(** ** The monitor *)

Lemma monitorContext_blocked w bi o :
  deref bi w = Some o -> chromedp.Done (Ctx o) (drv w) = false ->
  monitorContext bi w = None.
Proof.
  intros Ho Hd. unfold monitorContext. rewrite Ho, Hd. by destruct (decide _).
Qed.

Lemma monitorContext_retired w bi : bi ∉ monitors w -> monitorContext bi w = None.
Proof.
  intros Hm. unfold monitorContext. destruct (deref bi w); [|done].
  by rewrite decide_False.
Qed.

(** C3. The monitor of an open session waits while the done-signal of its
    context is silent.  Once the signal has fired, and no caller has closed
    the session, the monitor takes its step: it runs [Close], the very
    function callers use, and returns.  That step is the transition to
    Closed: the flag read by [Closed()] goes from false to true, with one
    [chromedp.Cancel] and at most one call of the release function.  There
    is no second transition: the goroutine is gone, a later [Close] changes
    nothing, and the flag stays set along every history. *)
Theorem monitor_closes_session w bi o :
  deref bi w = Some o -> bi ∈ monitors w -> closed o = false ->
  (chromedp.Done (Ctx o) (drv w) = false -> monitorContext bi w = None)
  /\ (chromedp.Done (Ctx o) (drv w) = true ->
      exists w',
        monitorContext bi w = Some w'
        /\ w' = retire bi (snd (Close bi w))
        /\ fst (Closed bi w) = false
        /\ fst (Closed bi w') = true
        /\ count_events is_chromedp_Cancel (since w w') = 1
        /\ count_events is_release (since w w') <= 1
        /\ monitorContext bi w' = None
        /\ Close bi w' = (tt, w')
        /\ forall cs bc, fst (Closed bi (snd (run cs bc w'))) = true).
Proof.
  intros Ho Hm Hc. split; [by apply monitorContext_blocked|].
  intros Hd. exists (retire bi (snd (Close bi w))).
  assert (deref bi (retire bi (snd (Close bi w))) = Some (mark_closed o)) as Ho'.
  { by apply Close_deref_same. }
  assert (fst (Closed bi (retire bi (snd (Close bi w)))) = true) as Hset.
  { unfold Closed; simpl. by rewrite Ho'. }
  split; [|split; [done|split; [|split; [done|split; [|split; [|split; [|split]]]]]]].
  - unfold monitorContext. rewrite Ho, Hd. by rewrite decide_True.
  - unfold Closed; simpl. by rewrite Ho.
  - destruct (Close_open w bi o Ho Hc) as (d & evs & -> & H1 & _).
    unfold since; simpl. by rewrite drop_app_length.
  - destruct (Close_open w bi o Ho Hc) as (d & evs & -> & _ & H2 & _).
    unfold since; simpl. rewrite drop_app_length. destruct (Cancel o); lia.
  - apply monitorContext_retired. simpl. rewrite elem_of_difference.
    intros [_ Hn]. apply Hn. by apply elem_of_singleton.
  - apply (Close_closed _ bi (mark_closed o)); [exact Ho' | reflexivity].
  - intros cs bc. by apply closed_forever.
Qed.

End Lifecycle.


(** * Properties of the registry *)

Section Registry.

Context {D : Type} `{!chromedp.Driver D}.

Implicit Types (w : World D) (bc : BrowserController).

(** ** A launch that fails

    It registers nothing and allocates nothing.  Either it failed at the
    probe, and its last two calls are [cancel()] and [cancelAlloc()]; or a
    hook was configured and it failed at [fetch.Enable], and then its last
    act is to log the error: it has called neither release function. *)
Lemma LaunchBrowser_failure options bc w r bc' w' err :
  LaunchBrowser options bc w = ((r, Some err), bc', w') ->
  r = None /\ bc' = bc /\ heap w' = heap w /\ monitors w' = monitors w
  /\ ((exists pre ctx alloc,
         trace w' = trace w ++ pre ++ [EvCancel ctx; EvCancelAlloc alloc]
         /\ count_events is_release pre = 0
         /\ count_events is_cancelAlloc pre = 0)
      \/ (exists pre,
           HookFunc options <> None
           /\ trace w' = trace w ++ pre ++ [EvLog (fmt_v err)]
           /\ count_events is_release pre = 0
           /\ count_events is_cancelAlloc pre = 0)).
Proof.
  unfold LaunchBrowser.
  generalize (allocatorOpts options). intros opts.
  unfold LaunchBrowser_hook, Run, Tasks, Navigate, fetch_Enable,
    NewBrowserInstance, bind, call_, call, ret, log_Println, emit.
  cbn [drv trace heap monitors fst snd].
  destruct (chromedp.NewExecAllocator _ _) as [alloc d1].
  cbn [drv trace heap monitors fst snd].
  destruct (chromedp.NewContext _ _) as [ctx d2].
  cbn [drv trace heap monitors fst snd].
  destruct (chromedp.enter ctx d2) as [[e0|] d3];
    cbn [drv trace heap monitors fst snd].
  - intros [= <- <- <- <-]. cbn [drv trace heap monitors fst snd].
    repeat (split; [reflexivity|]). left.
    exists [EvNewExecAllocator opts; EvNewContext alloc; EvRun ctx], ctx, alloc.
    rewrite <- !app_assoc. split; [reflexivity|]. split; reflexivity.
  - destruct (chromedp.Navigate _ _ _) as [[e1|] d4];
      cbn [drv trace heap monitors fst snd].
    + intros [= <- <- <- <-]. cbn [drv trace heap monitors fst snd].
      repeat (split; [reflexivity|]). left.
      exists [EvNewExecAllocator opts; EvNewContext alloc; EvRun ctx;
              EvNavigate ctx "about:blank"], ctx, alloc.
      rewrite <- !app_assoc. split; [reflexivity|]. split; reflexivity.
    + destruct (HookFunc options) as [hook|] eqn:Hh;
        cbn [drv trace heap monitors fst snd]; [|intros [=]].
      destruct (chromedp.enter ctx d4) as [[e2|] d5];
        cbn [drv trace heap monitors fst snd].
      * intros [= <- <- <- <-]. cbn [drv trace heap monitors fst snd].
        repeat (split; [reflexivity|]). right.
        exists [EvNewExecAllocator opts; EvNewContext alloc; EvRun ctx;
                EvNavigate ctx "about:blank"; EvRun ctx].
        split; [done|]. rewrite <- !app_assoc.
        split; [reflexivity|]. split; reflexivity.
      * destruct (chromedp.fetch_Enable _ _) as [[e3|] d6];
          cbn [drv trace heap monitors fst snd]; [|intros [=]].
        intros [= <- <- <- <-]. cbn [drv trace heap monitors fst snd].
        repeat (split; [reflexivity|]). right.
        exists [EvNewExecAllocator opts; EvNewContext alloc; EvRun ctx;
                EvNavigate ctx "about:blank"; EvRun ctx; EvFetchEnable ctx].
        split; [done|]. rewrite <- !app_assoc.
        split; [reflexivity|]. split; reflexivity.
Qed.

(** C5. [CloseBrowser id] returns the not-found error exactly when the
    registry has no entry for [id], and then changes nothing.  When there is
    an entry, it calls [Close] on that session and deletes the entry, with
    no condition on what [Close] did: afterwards [GetBrowserInstance id]
    returns the not-found error, the count is one less, the other entries
    and the counter are as before. *)
Theorem CloseBrowser_spec id bc w :
  (fst (fst (CloseBrowser id bc w)) = Some (errNotExist id)
   <-> instances bc !! id = None)
  /\ match instances bc !! id with
     | None => CloseBrowser id bc w = (Some (errNotExist id), bc, w)
     | Some instance =>
         exists bc',
           CloseBrowser id bc w = (None, bc', snd (Close instance w))
           /\ instances bc' = delete id (instances bc)
           /\ nextID bc' = nextID bc
           /\ GetBrowserInstance id bc' = (None, Some (errNotExist id))
           /\ GetBrowserCount bc' = (GetBrowserCount bc - 1)%Z
     end.
Proof.
  unfold CloseBrowser. destruct (instances bc !! id) as [instance|] eqn:Hl.
  - unfold bind, ret. destruct (Close instance w) as [[] w1]. simpl.
    split; [split; intros; discriminate|].
    eexists. split; [reflexivity|]. simpl.
    split; [done|]. split; [done|]. split.
    + unfold GetBrowserInstance; simpl. by rewrite lookup_delete_eq.
    + unfold GetBrowserCount; simpl.
      rewrite map_size_delete_Some by eauto.
      assert (size (instances bc) <> 0) by (apply map_size_ne_0_lookup_2 with id; eauto).
      lia.
  - simpl. done.
Qed.

(** ** The registry holds allocated sessions *)

Lemma registered_allocated_mono bc bc' w w' :
  registered_allocated bc w -> evolves w w' ->
  (forall id instance, instances bc' !! id = Some instance ->
                       instances bc !! id = Some instance) ->
  registered_allocated bc' w'.
Proof.
  intros Hra Hev Hsub id instance Hl.
  destruct (Hra id instance (Hsub _ _ Hl)) as [o Ho].
  destruct (Hev _ _ Ho) as (o' & Ho' & _). by exists o'.
Qed.

Lemma registered_allocated_boot (d : D) :
  registered_allocated NewBrowserController (boot d).
Proof. intros id instance Hl. simpl in Hl. by rewrite lookup_empty in Hl. Qed.

Lemma exec_registered_allocated (c : Cmd D) bc w :
  registered_allocated bc w ->
  registered_allocated (snd (fst (exec c bc w))) (snd (exec c bc w)).
Proof.
  intros Hra. pose proof (exec_evolves c bc w) as Hev.
  destruct c;
    try (apply (registered_allocated_mono bc bc w); done).
  - unfold exec in *.
    destruct (LaunchBrowser_cases options bc w)
      as [(err & w' & E & _) | (browser & ctx & alloc & w1 & Hh & _ & E)];
      rewrite E in *; cbn [fst snd] in *.
    + by apply (registered_allocated_mono bc bc w).
    + intros id instance Hl. cbn [instances] in Hl.
      apply lookup_insert_Some in Hl as [[<- <-]|[_ Hl]].
      * rewrite <- Hh. rewrite NewBrowserInstance_deref. eauto.
      * destruct (Hra _ _ Hl) as [o Ho].
        destruct (Hev _ _ Ho) as (o' & Ho' & _). by exists o'.
  - unfold exec, CloseBrowser in *.
    destruct (instances bc !! id) as [instance|] eqn:Hl.
    + unfold bind, ret in *. destruct (Close instance w) as [[] w1].
      cbn [fst snd] in *.
      apply (registered_allocated_mono bc _ w); [done..|].
      intros id' i' Hl'. cbn [instances] in Hl'.
      by apply lookup_delete_Some in Hl' as [_ ?].
    + by apply (registered_allocated_mono bc bc w).
  - unfold exec, CloseAllBrowsers, bind, ret in *.
    rewrite CloseAllBrowsers_loop_unfold in *. cbn [fst snd] in *.
    apply (registered_allocated_mono bc _ w); [done..|].
    intros id' i' Hl'. cbn [instances] in Hl'.
    rewrite foldl_delete_lookup in Hl'.
    by destruct (decide _).
Qed.

(** Along every history from an empty registry. *)
Lemma run_registered_allocated (cs : list (Cmd D)) bc w :
  registered_allocated bc w ->
  registered_allocated (snd (fst (run cs bc w))) (snd (run cs bc w)).
Proof.
  revert bc w. induction cs as [|c rest IH]; intros bc w Hra; [done|].
  simpl. pose proof (exec_registered_allocated c bc w Hra) as H1.
  destruct (exec c bc w) as [[h bc1] w1]. simpl in H1.
  pose proof (IH bc1 w1 H1) as H2.
  destruct (run rest bc1 w1) as [[hs bc2] w2]. exact H2.
Qed.

(** C8. [CloseAllBrowsers], in whatever order the iteration visits the map:
    when it returns the map is empty and the count is 0; every session that
    was registered when it started has had [Close] called on it, so its flag
    reads true, and is no longer found under its identifier.  (The sessions
    of the registry are allocated objects, as they are along every
    history.) *)
Theorem CloseAllBrowsers_spec (order : RangeOrder) bc w :
  registered_allocated bc w ->
  instances (fst (CloseAllBrowsers order bc w)) = ∅
  /\ GetBrowserCount (fst (CloseAllBrowsers order bc w)) = 0%Z
  /\ snd (CloseAllBrowsers order bc w) =
       foldl (fun w e => snd (Close (snd e) w)) w (order (instances bc))
  /\ forall id instance,
       instances bc !! id = Some instance ->
       fst (Closed instance (snd (CloseAllBrowsers order bc w))) = true
       /\ GetBrowserInstance id (fst (CloseAllBrowsers order bc w))
          = (None, Some (errNotExist id)).
Proof.
  intros Hra. unfold CloseAllBrowsers, bind.
  rewrite CloseAllBrowsers_loop_unfold. simpl.
  assert (forall id instance, instances bc !! id = Some instance ->
            (id, instance) ∈ order (instances bc)) as Hin.
  { intros id instance Hl. rewrite (range_perm order).
    by apply elem_of_map_to_list. }
  assert (foldl (fun m e => delete (fst e) m) (instances bc)
            (order (instances bc)) = ∅) as Hempty.
  { apply map_empty. intros k. rewrite foldl_delete_lookup.
    destruct (decide _) as [|Hnin]; [done|].
    destruct (instances bc !! k) as [instance|] eqn:Hl; [|done].
    exfalso. apply Hnin.
    apply (list_elem_of_fmap_2 fst _ (k, instance)), Hin, Hl. }
  rewrite Hempty. split; [done|]. split; [done|]. split; [done|].
  intros id instance Hl. split.
  - apply foldl_Close_closed with id; [by apply Hin | by eapply Hra].
  - unfold GetBrowserInstance; simpl. by rewrite lookup_empty.
Qed.

(** ** Handles *)

Lemma int_wrap_small z : (- 2 ^ 63 <= z < 2 ^ 63)%Z -> int_wrap z = z.
Proof. intros Hz. unfold int_wrap. rewrite Z.mod_small; lia. Qed.

Lemma length_consecutive first n : length (consecutive first n) = n.
Proof. revert first. induction n as [|n IH]; intros first; simpl; [done|]. by rewrite IH. Qed.

Lemma elem_of_consecutive first n x :
  x ∈ consecutive first n -> (first <= x < first + Z.of_nat n)%Z.
Proof.
  revert first. induction n as [|n IH]; intros first Hin; simpl in Hin.
  - by apply not_elem_of_nil in Hin.
  - apply elem_of_cons in Hin as [->|Hin]; [lia|]. apply IH in Hin. lia.
Qed.

Lemma consecutive_sorted first n : StronglySorted Z.lt (consecutive first n).
Proof.
  revert first. induction n as [|n IH]; intros first; simpl; constructor.
  - apply IH.
  - apply Forall_forall. intros x Hin. apply elem_of_consecutive in Hin. lia.
Qed.

Lemma consecutive_NoDup first n : NoDup (consecutive first n).
Proof.
  revert first. induction n as [|n IH]; intros first; simpl; constructor.
  - intros Hin. apply elem_of_consecutive in Hin. lia.
  - apply IH.
Qed.

(** A step issues no handle and leaves the counter, or issues the counter
    and increments it. *)
Lemma exec_handle (c : Cmd D) bc w :
  (fst (fst (exec c bc w)) = None
   /\ nextID (snd (fst (exec c bc w))) = nextID bc)
  \/ (fst (fst (exec c bc w)) = Some (nextID bc)
      /\ nextID (snd (fst (exec c bc w))) = int_wrap (nextID bc + 1)).
Proof.
  destruct c; try (left; done).
  - unfold exec.
    destruct (LaunchBrowser_cases options bc w)
      as [(err & w' & -> & _) | (browser & ctx & alloc & w1 & Hh & _ & ->)];
      cbn [fst snd].
    + left. done.
    + right. split; [|done]. unfold issued.
      rewrite <- Hh, NewBrowserInstance_deref. done.
  - left. unfold exec, CloseBrowser.
    destruct (instances bc !! id) as [instance|]; [|done].
    unfold bind, ret. by destruct (Close instance w) as [[] w1].
  - left. unfold exec, CloseAllBrowsers, bind, ret.
    by rewrite CloseAllBrowsers_loop_unfold.
Qed.

(** Below the largest [int], histories issue consecutive handles. *)
Lemma run_handles (cs : list (Cmd D)) bc w :
  (0 < nextID bc)%Z ->
  (nextID bc + Z.of_nat (length (handles cs bc w)) <= int_max)%Z ->
  handles cs bc w = consecutive (nextID bc) (length (handles cs bc w))
  /\ nextID (snd (fst (run cs bc w)))
     = (nextID bc + Z.of_nat (length (handles cs bc w)))%Z.
Proof.
  unfold handles. revert bc w.
  induction cs as [|c rest IH]; intros bc w Hpos Hmax; simpl.
  - split; [done | lia].
  - simpl in Hmax. pose proof (exec_handle c bc w) as Hc.
    destruct (exec c bc w) as [[h bc1] w1]. cbn [fst snd] in Hc.
    specialize (IH bc1 w1).
    destruct (run rest bc1 w1) as [[hs bc2] w2]. cbn [fst snd] in *.
    destruct Hc as [[-> Hn]|[-> Hn]].
    + rewrite Hn in IH. by apply IH.
    + cbn [length] in *. unfold int_max in *.
      rewrite int_wrap_small in Hn by lia. rewrite Hn in IH.
      destruct IH as [IH1 IH2]; [lia..|].
      split; [simpl; by rewrite <- IH1 | lia].
Qed.

(** C6. Along every history of one controller (launches that succeed or
    fail, closes, close-alls, lookups, session calls, monitors, browsers
    dying), as long as fewer than 2^63 - 1 handles were issued so that the
    [int] counter has not wrapped: the handles returned by the successful
    launches are 1, 2, 3, ... in the order of issue.  So they start at 1,
    are strictly increasing and pairwise distinct, whatever was closed in
    between, and each of them is below the counter: no later launch returns
    it again. *)
Theorem handles_strictly_increasing (d : D) (cs : list (Cmd D)) :
  (Z.of_nat (length (handles cs NewBrowserController (boot d))) < int_max)%Z ->
  handles cs NewBrowserController (boot d)
    = consecutive 1 (length (handles cs NewBrowserController (boot d)))
  /\ StronglySorted Z.lt (handles cs NewBrowserController (boot d))
  /\ NoDup (handles cs NewBrowserController (boot d))
  /\ (forall id, head (handles cs NewBrowserController (boot d)) = Some id -> id = 1%Z)
  /\ (forall id, id ∈ handles cs NewBrowserController (boot d) ->
        (1 <= id < nextID (snd (fst (run cs NewBrowserController (boot d)))))%Z).
Proof.
  intros Hlen.
  destruct (run_handles cs NewBrowserController (boot d)) as [Hh Hn];
    [done | simpl; lia |].
  change (nextID NewBrowserController) with 1%Z in *.
  split; [exact Hh|]. rewrite Hn. clear Hn.
  rewrite Hh. rewrite length_consecutive.
  split; [apply consecutive_sorted|]. split; [apply consecutive_NoDup|]. split.
  - intros id. destruct (length _); simpl; [done|]. by intros [= <-].
  - intros id Hin. apply elem_of_consecutive in Hin. lia.
Qed.

End Registry.


(** * Properties of the remote-call bridge and of the launch options *)

Section Bridge.

Context {D : Type} `{!chromedp.Driver D}.

Implicit Types (w : World D) (bi : loc) (o : BrowserInstance D).

(** ** The gate of Goto and GetCookies *)

Lemma Goto_closed w bi o url hooks :
  deref bi w = Some o -> closed o = true ->
  Goto bi url hooks w = (Some errClosed, w).
Proof. intros Ho Hc. unfold Goto, bind, Closed. by rewrite Ho, Hc. Qed.

Lemma GetCookies_closed w bi o :
  deref bi w = Some o -> closed o = true ->
  GetCookies bi w = (([], Some errClosed), w).
Proof. intros Ho Hc. unfold GetCookies, bind, Closed. by rewrite Ho, Hc. Qed.

(** ** The evaluation calls read no flag *)

Lemma SabaFetch_eval_runs w bi o eval :
  deref bi w = Some o ->
  exists rest,
    trace (snd (SabaFetch_eval bi eval w)) = trace w ++ EvRun (Ctx o) :: rest.
Proof.
  intros Ho. unfold SabaFetch_eval, Run, bind, call. rewrite Ho.
  destruct (chromedp.enter (Ctx o) (drv w)) as [[e|] d]; simpl.
  - by exists [].
  - unfold bind, Evaluate_BrowserResponse, call; simpl.
    destruct (chromedp.Evaluate_BrowserResponse _ _ _ _ _) as [[[e|] data] d'];
      simpl; rewrite <- app_assoc; eauto.
Qed.

Lemma SabaFetch_trace w bi eval :
  trace (snd (SabaFetch bi eval w)) = trace (snd (SabaFetch_eval bi eval w)).
Proof.
  unfold SabaFetch, bind. destruct (SabaFetch_eval bi eval w) as [[e data] w1].
  by destruct (data !! "dst").
Qed.

(** C7. When the map that the evaluation of [SabaFetch] filled has no
    "dst" entry, [SabaFetch] returns a response (its only result: there is
    no error result) whose data and token are empty and whose error field is
    the message of the error that [chromedp.Run] returned, or "nil Response"
    when it returned none. *)
Theorem SabaFetch_no_dst w bi eval :
  snd (fst (SabaFetch_eval bi eval w)) !! "dst" = None ->
  SabaFetch bi eval w =
    (Some {| Data := "";
             Error := match fst (fst (SabaFetch_eval bi eval w)) with
                      | Some err => error_Error err
                      | None => "nil Response"
                      end;
             Token := "" |},
     snd (SabaFetch_eval bi eval w)).
Proof.
  unfold SabaFetch, bind.
  destruct (SabaFetch_eval bi eval w) as [[err data] w1]. simpl.
  intros ->. by destruct err.
Qed.

(** ** CallJs2Str *)

Lemma CallJs2Str_eval_refused w bi o eval e :
  deref bi w = Some o -> fst (chromedp.enter (Ctx o) (drv w)) = Some e ->
  fst (CallJs2Str_eval bi eval w) = (Some e, ∅).
Proof.
  intros Ho He. unfold CallJs2Str_eval, WaitFor, Context_, Run, bind, call,
    fmt_Println, emit, ret. simpl. rewrite Ho.
  destruct (chromedp.enter (Ctx o) (drv w)) as [e' d]. simpl in He. by subst.
Qed.

(** C10, as the code has it.  The string that [CallJs2Str] returns is the
    "dst" entry of the map after the evaluation, or the empty string when
    there is none; the error of the evaluation does not enter it.  So it is
    empty whenever the map has no "dst" entry, which is the case when
    [chromedp.Run] refuses the context before the evaluation starts; and an
    evaluation that left no entry, failed or not, gives the same string as
    one whose value is the empty string. *)
Theorem CallJs2Str_spec w bi eval :
  fst (CallJs2Str bi eval w)
    = default "" (snd (fst (CallJs2Str_eval bi eval w)) !! "dst")
  /\ snd (CallJs2Str bi eval w) = snd (CallJs2Str_eval bi eval w)
  /\ (snd (fst (CallJs2Str_eval bi eval w)) !! "dst" = None ->
      fst (CallJs2Str bi eval w) = "")
  /\ (forall o e,
        deref bi w = Some o ->
        fst (chromedp.enter (Ctx o) (drv w)) = Some e ->
        fst (CallJs2Str bi eval w) = "")
  /\ (forall w' bi' eval',
        snd (fst (CallJs2Str_eval bi eval w)) !! "dst" = None ->
        snd (fst (CallJs2Str_eval bi' eval' w')) !! "dst" = Some "" ->
        fst (CallJs2Str bi eval w) = fst (CallJs2Str bi' eval' w')).
Proof.
  assert (forall w0 b0 e0,
            fst (CallJs2Str b0 e0 w0)
              = default "" (snd (fst (CallJs2Str_eval b0 e0 w0)) !! "dst")
            /\ snd (CallJs2Str b0 e0 w0) = snd (CallJs2Str_eval b0 e0 w0)) as Heq.
  { intros w0 b0 e0. unfold CallJs2Str, bind.
    destruct (CallJs2Str_eval b0 e0 w0) as [[err data] w1]. simpl.
    by destruct (data !! "dst"). }
  split; [apply Heq|]. split; [apply Heq|]. split; [|split].
  - intros Hn. by rewrite (proj1 (Heq _ _ _)), Hn.
  - intros o e Ho He. rewrite (proj1 (Heq _ _ _)).
    by rewrite (CallJs2Str_eval_refused w bi o eval e Ho He).
  - intros w' bi' eval' Hn Hs. by rewrite !(proj1 (Heq _ _ _)), Hn, Hs.
Qed.

(** ** The launch configuration *)

(** C9, as the code has it.  The configuration handed to the allocator is
    the default entries followed by one entry for the path and one for the
    headless flag, whatever their values, and then by one entry for each of
    user-data directory, disable-GPU, window size, proxy and fingerprint
    that is non-empty, true or non-nil, and by none for the others.  The
    hook factory contributes no entry. *)
Theorem allocatorOpts_spec (options : BrowserOptions) :
  allocatorOpts (D := D) options =
    chromedp.DefaultExecAllocatorOptions (D := D)
    ++ [chromedp.ExecPath (Path options)]
    ++ [chromedp.Flag "headless" (chromedp.FlagBool (Headless options))]
    ++ (if decide (UserDir options = "") then []
        else [chromedp.UserDataDir (UserDir options)])
    ++ (if DisableGPU options then [chromedp.DisableGPU] else [])
    ++ (match WindowSize options with
        | Some p => [chromedp.WindowSize (X p) (Y p)]
        | None => []
        end)
    ++ (if decide (Proxy options = "") then []
        else [chromedp.ProxyServer (Proxy options)])
    ++ (if decide (Fingerprint options = "") then []
        else [chromedp.Flag "fp" (chromedp.FlagString (Fingerprint options))]).
Proof.
  unfold allocatorOpts.
  destruct (DisableGPU options); destruct (WindowSize options);
    repeat case_decide; try congruence;
    simpl; rewrite <- ?app_assoc; simpl; rewrite ?app_nil_r; reflexivity.
Qed.

End Bridge.


(** * Runs on the scripted driver *)

(** C1 on the code: a session is launched and closed, then each operation is
    called on it.  [Closed()] reads true; [Goto] and [GetCookies] return the
    closed error and make no call.  [SabaFetch] and [CallJs2Str] read no
    flag: both call [chromedp.Run] on the released context, and what they
    return is what the driver made of that call, here its "context canceled"
    in the error field of the response, and the empty string. *)
Theorem closed_session_calls :
  Closed 0 Stub.released = (true, Stub.released)
  /\ Goto 0 "https://example.org" [] Stub.released = (Some errClosed, Stub.released)
  /\ GetCookies 0 Stub.released = (([], Some errClosed), Stub.released)
  /\ fst (SabaFetch 0 "1+1" Stub.released)
     = Some {| Data := ""; Error := "context canceled"; Token := "" |}
  /\ since Stub.released (snd (SabaFetch 0 "1+1" Stub.released)) = [EvRun 1]
  /\ fst (CallJs2Str 0 "1+1" Stub.released) = ""
  /\ since Stub.released (snd (CallJs2Str 0 "1+1" Stub.released))
     = [EvPrintln "get Context"; EvRun 1].
Proof. repeat split; vm_compute; reflexivity. Qed.

(** C4 on the code: the same launch against a driver that fails the probe
    and against one that fails [fetch.Enable].  Both return the error and
    register nothing.  After the failed probe [cancel()] and [cancelAlloc()]
    have run once each; after the failed [fetch.Enable] neither has run, and
    the context is still live. *)
Theorem LaunchBrowser_failure_release :
  LaunchBrowser Stub.hooked NewBrowserController Stub.probe_fails
    = ((None, Some Stub.probe_failure), NewBrowserController,
       snd (LaunchBrowser Stub.hooked NewBrowserController Stub.probe_fails))
  /\ since Stub.probe_fails
       (snd (LaunchBrowser Stub.hooked NewBrowserController Stub.probe_fails))
     = [ EvNewExecAllocator (allocatorOpts Stub.hooked); EvNewContext 0; EvRun 1;
         EvNavigate 1 "about:blank"; EvCancel 1; EvCancelAlloc 0 ]
  /\ Stub.cancels
       (drv (snd (LaunchBrowser Stub.hooked NewBrowserController Stub.probe_fails)))
     = [1]
  /\ Stub.releases
       (drv (snd (LaunchBrowser Stub.hooked NewBrowserController Stub.probe_fails)))
     = [0]
  /\ LaunchBrowser Stub.hooked NewBrowserController Stub.enable_fails
     = ((None, Some Stub.enable_failure), NewBrowserController,
        snd (LaunchBrowser Stub.hooked NewBrowserController Stub.enable_fails))
  /\ since Stub.enable_fails
       (snd (LaunchBrowser Stub.hooked NewBrowserController Stub.enable_fails))
     = [ EvNewExecAllocator (allocatorOpts Stub.hooked); EvNewContext 0; EvRun 1;
         EvNavigate 1 "about:blank"; EvRun 1; EvFetchEnable 1;
         EvLog "fetch.enable failed" ]
  /\ Stub.cancels
       (drv (snd (LaunchBrowser Stub.hooked NewBrowserController Stub.enable_fails)))
     = []
  /\ Stub.releases
       (drv (snd (LaunchBrowser Stub.hooked NewBrowserController Stub.enable_fails)))
     = []
  /\ chromedp.Done 1
       (drv (snd (LaunchBrowser Stub.hooked NewBrowserController Stub.enable_fails)))
     = false.
Proof. repeat split; vm_compute; reflexivity. Qed.

(** The claim of C9 fails where every option is absent or empty: the
    configuration is not the default one, it has an entry for the empty path
    and one for the false headless flag. *)
Lemma allocatorOpts_empty_options :
  allocatorOpts (D := Stub.State) Stub.empty
    = chromedp.DefaultExecAllocatorOptions (D := Stub.State)
      ++ [ chromedp.ExecPath "";
           chromedp.Flag "headless" (chromedp.FlagBool false) ]
  /\ allocatorOpts (D := Stub.State) Stub.empty
     <> chromedp.DefaultExecAllocatorOptions (D := Stub.State).
Proof. split; [reflexivity | discriminate]. Qed.

(** The claim of C10 fails for an evaluation that reports an error after it
    stored the entry: the evaluation fails, the string is not empty. *)
Lemma CallJs2Str_failed_evaluation :
  fst (fst (CallJs2Str_eval 0 Stub.two_entries Stub.garbled))
    = Some Stub.decode_failure
  /\ fst (CallJs2Str 0 Stub.two_entries Stub.garbled) = "abc"
  /\ fst (CallJs2Str 0 Stub.two_entries Stub.garbled) <> "".
Proof. repeat split; try (vm_compute; reflexivity). discriminate. Qed.

(** ** The theorems at concrete inputs *)

Lemma Close_idempotent_witness :
  deref 0 Stub.released = Some (mark_closed
    {| ID := 1; Browser := Some 1; Ctx := 1;
       Cancel := Some (LaunchCancel 1 0); closed := false |})
  /\ Close 0 Stub.released = (tt, Stub.released)
  /\ Legacy.Close 0 Stub.released = (None, Stub.released)
  /\ closes 3 0 Stub.launched = Stub.released
  /\ count_events is_release (since Stub.launched (closes 3 0 Stub.launched)) <= 1.
Proof.
  assert (deref 0 Stub.released = Some (mark_closed
    {| ID := 1; Browser := Some 1; Ctx := 1;
       Cancel := Some (LaunchCancel 1 0); closed := false |})) as Hr
    by (vm_compute; reflexivity).
  assert (deref 0 Stub.launched = Some
    {| ID := 1; Browser := Some 1; Ctx := 1;
       Cancel := Some (LaunchCancel (D := Stub.State) 1 0); closed := false |}) as Hl
    by (vm_compute; reflexivity).
  destruct (Close_idempotent Stub.released 0 _ Hr) as (Hnoop & _).
  destruct (Close_idempotent Stub.launched 0 _ Hl) as (_ & _ & Hn & Hcount & _).
  split; [exact Hr|].
  split; [apply Hnoop; reflexivity|].
  split; [apply Hnoop; reflexivity|].
  split; [apply (Hn 2) | apply (Hcount 3)].
Defined.

Lemma monitor_closes_session_witness :
  chromedp.Done 1 (drv Stub.crashed) = true
  /\ fst (Closed 0 Stub.crashed) = false
  /\ exists w',
       monitorContext 0 Stub.crashed = Some w'
       /\ fst (Closed 0 w') = true
       /\ monitorContext 0 w' = None.
Proof.
  assert (deref 0 Stub.crashed = Some
    {| ID := 1; Browser := Some 1; Ctx := 1;
       Cancel := Some (LaunchCancel (D := Stub.State) 1 0); closed := false |}) as Ho
    by (vm_compute; reflexivity).
  assert (0 ∈ monitors Stub.crashed) as Hm
    by (apply (bool_decide_unpack _); vm_compute; exact I).
  assert (chromedp.Done 1 (drv Stub.crashed) = true) as Hd
    by (vm_compute; reflexivity).
  destruct (monitor_closes_session Stub.crashed 0 _ Ho Hm eq_refl) as [_ Hstep].
  destruct (Hstep Hd) as (w' & H1 & _ & H3 & H4 & _ & _ & H7 & _).
  split; [exact Hd|]. split; [exact H3|].
  exists w'. split; [exact H1|]. split; [exact H4 | exact H7].
Defined.

Lemma CloseBrowser_spec_witness :
  GetBrowserCount Stub.registry = 1%Z
  /\ exists bc',
       CloseBrowser 1 Stub.registry Stub.launched = (None, bc', Stub.released)
       /\ GetBrowserInstance 1 bc' = (None, Some (errNotExist 1))
       /\ GetBrowserCount bc' = 0%Z.
Proof.
  split; [vm_compute; reflexivity|].
  pose proof (CloseBrowser_spec 1 Stub.registry Stub.launched) as [_ Hs].
  destruct (instances Stub.registry !! 1%Z) as [instance|] eqn:Hl;
    [|vm_compute in Hl; discriminate].
  assert (instance = 0) as -> by (vm_compute in Hl; congruence).
  destruct Hs as (bc' & H1 & _ & _ & H4 & H5).
  exists bc'. split; [exact H1|]. split; [exact H4|].
  rewrite H5. vm_compute. reflexivity.
Defined.

Lemma handles_strictly_increasing_witness :
  handles Stub.history NewBrowserController (boot Stub.healthy) = [1; 2; 3; 4]%Z
  /\ NoDup (handles Stub.history NewBrowserController (boot Stub.healthy))
  /\ StronglySorted Z.lt (handles Stub.history NewBrowserController (boot Stub.healthy)).
Proof.
  assert (Z.of_nat (length (handles Stub.history NewBrowserController
                              (boot Stub.healthy))) < int_max)%Z as Hlen
    by (vm_compute; reflexivity).
  destruct (handles_strictly_increasing Stub.healthy Stub.history Hlen)
    as (Hh & Hs & Hn & _).
  split; [|split; [exact Hn | exact Hs]].
  vm_compute. reflexivity.
Defined.

Lemma SabaFetch_no_dst_witness :
  fst (SabaFetch 0 "undefined" Stub.launched)
    = Some {| Data := ""; Error := "nil Response"; Token := "" |}
  /\ fst (SabaFetch 0 "fail()" Stub.failing)
     = Some {| Data := ""; Error := "exception thrown"; Token := "" |}.
Proof.
  split.
  - rewrite (SabaFetch_no_dst Stub.launched 0 "undefined")
      by (vm_compute; reflexivity).
    vm_compute. reflexivity.
  - rewrite (SabaFetch_no_dst Stub.failing 0 "fail()")
      by (vm_compute; reflexivity).
    vm_compute. reflexivity.
Defined.

Lemma CloseAllBrowsers_spec_witness :
  GetBrowserCount (snd (fst (run Stub.three NewBrowserController (boot Stub.healthy))))
    = 3%Z
  /\ GetBrowserCount
       (fst (CloseAllBrowsers Stub.in_order
               (snd (fst (run Stub.three NewBrowserController (boot Stub.healthy))))
               (snd (run Stub.three NewBrowserController (boot Stub.healthy)))))
     = 0%Z
  /\ fst (Closed 2
            (snd (CloseAllBrowsers Stub.in_order
               (snd (fst (run Stub.three NewBrowserController (boot Stub.healthy))))
               (snd (run Stub.three NewBrowserController (boot Stub.healthy))))))
     = true.
Proof.
  split; [vm_compute; reflexivity|].
  destruct (CloseAllBrowsers_spec Stub.in_order
              (snd (fst (run Stub.three NewBrowserController (boot Stub.healthy))))
              (snd (run Stub.three NewBrowserController (boot Stub.healthy))))
    as (_ & Hcount & _ & Hall).
  { apply run_registered_allocated, registered_allocated_boot. }
  split; [exact Hcount|].
  apply (Hall 3%Z 2). vm_compute. reflexivity.
Defined.

Lemma CallJs2Str_spec_witness :
  fst (CallJs2Str 0 "f()" Stub.failing) = ""
  /\ fst (CallJs2Str 0 "f()" Stub.released) = ""
  /\ fst (CallJs2Str 0 "f()" Stub.blank) = "".
Proof.
  destruct (CallJs2Str_spec Stub.failing 0 "f()") as (_ & _ & Hnone & _ & Hsame).
  destruct (CallJs2Str_spec Stub.released 0 "f()") as (_ & _ & _ & Hrefused & _).
  split; [apply Hnone; vm_compute; reflexivity|].
  split.
  - eapply Hrefused; vm_compute; reflexivity.
  - rewrite <- (Hsame Stub.blank 0 "f()") by (vm_compute; reflexivity).
    apply Hnone. vm_compute. reflexivity.
Defined.

Lemma allocatorOpts_spec_witness :
  allocatorOpts (D := Stub.State) Stub.full
    = chromedp.DefaultExecAllocatorOptions (D := Stub.State)
      ++ [ chromedp.ExecPath "/bin/fake-browser";
           chromedp.Flag "headless" (chromedp.FlagBool true);
           chromedp.UserDataDir "/tmp/profile";
           chromedp.DisableGPU;
           chromedp.WindowSize 800 600;
           chromedp.ProxyServer "socks5://127.0.0.1:1080";
           chromedp.Flag "fp" (chromedp.FlagString "fp-1") ].
Proof. rewrite (allocatorOpts_spec Stub.full). reflexivity. Defined.


(** * Further properties of the session file *)

Section Session.

Context {D : Type} `{!chromedp.Driver D}.

Implicit Types (w : World D) (bi : loc) (o : BrowserInstance D).

(** ** Cookies *)

Lemma convertCookies_from (netCookies : list network.Cookie) (acc : list http.Cookie) :
  fold_left
    (fun httpCookies netCookie =>
       httpCookies ++
       [{| http.Name := network.Name netCookie;
           http.Value := network.Value netCookie;
           http.Path := network.Path netCookie;
           http.Domain := network.Domain netCookie;
           http.Secure := network.Secure netCookie;
           http.HttpOnly := network.HTTPOnly netCookie |}])
    netCookies acc
  = acc ++ (convertCookie <$> netCookies).
Proof.
  revert acc. induction netCookies as [|c rest IH]; intros acc.
  - cbn. by rewrite app_nil_r.
  - cbn [fold_left fmap list_fmap]. rewrite IH, <- app_assoc. reflexivity.
Qed.

(** X1. [convertCookies] converts cookie by cookie: the result has one record
    per input cookie, in the same order, the i-th one carrying the name,
    value, path, domain, secure and http-only fields of the i-th input; and
    it distributes over concatenation. *)
Theorem convertCookies_pointwise (netCookies more : list network.Cookie) :
  convertCookies netCookies = convertCookie <$> netCookies
  /\ length (convertCookies netCookies) = length netCookies
  /\ (forall i, convertCookies netCookies !! i = convertCookie <$> netCookies !! i)
  /\ convertCookies (netCookies ++ more)
     = convertCookies netCookies ++ convertCookies more.
Proof.
  assert (forall l, convertCookies l = convertCookie <$> l) as Hmap.
  { intros l. unfold convertCookies. by rewrite convertCookies_from. }
  split; [apply Hmap|]. split; [|split].
  - by rewrite Hmap, length_fmap.
  - intros i. by rewrite Hmap, list_lookup_fmap.
  - by rewrite !Hmap, fmap_app.
Qed.

(** ** Err *)

(** [Err] returns nil exactly for an empty error field; the error it returns
    otherwise carries that field as its message. *)
Lemma Err_spec (this : BrowserResponse) :
  (Err this = None <-> Error this = "")
  /\ (Error this <> "" -> Err this = Some (errors_New (Error this)))
  /\ (forall e, Err this = Some e -> error_Error e = Error this).
Proof.
  unfold Err. destruct (Error this) as [|a s] eqn:E; cbn.
  - split; [done|]. split; [done|]. intros e [=].
  - split; [split; intros; discriminate|].
    split; [done|]. by intros e [= <-].
Qed.

(** ** GetCookies on an open session *)

Ltac run_monad :=
  unfold Run, Tasks, Navigate, fetch_Enable, Evaluate_string,
    Evaluate_BrowserResponse, WaitFor, Context_, Closed, bind, call_, call,
    ret, log_Printf, log_Println, fmt_Println, emit, after;
  cbn [drv trace heap monitors fst snd].

(** X2. On an open session [GetCookies] has three outcomes.  When
    [chromedp.Run] refuses the context, or [network.GetCookies] fails, the
    list is nil and the error is the driver's, prefixed; otherwise the list
    is the conversion of the driver's cookies and the error is nil.  The
    heap and the goroutines are untouched in all three. *)
Theorem GetCookies_open w bi o :
  deref bi w = Some o -> closed o = false ->
  GetCookies bi w =
    match chromedp.enter (Ctx o) (drv w) with
    | (Some err, d) =>
        (([], Some (errors_New ("获取 cookies 失败: " +:+ error_Error err))),
         after w d [EvRun (Ctx o)])
    | (None, d) =>
        match chromedp.network_GetCookies (Ctx o) d with
        | ((_, Some err), d') =>
            (([], Some (errors_New ("获取 cookies 失败: " +:+ error_Error err))),
             after w d' [EvRun (Ctx o); EvGetCookies (Ctx o)])
        | ((cks, None), d') =>
            ((convertCookie <$> cks, None),
             after w d' [EvRun (Ctx o); EvGetCookies (Ctx o)])
        end
    end.
Proof.
  intros Ho Hc. unfold GetCookies, Closed, bind. rewrite Ho, Hc.
  cbn [fst snd]. rewrite Ho. run_monad.
  destruct (chromedp.enter (Ctx o) (drv w)) as [[e|] d];
    cbn [drv trace heap monitors fst snd]; [reflexivity|].
  destruct (chromedp.network_GetCookies (Ctx o) d) as [[cks [e|]] d'];
    cbn [drv trace heap monitors fst snd]; rewrite <- app_assoc;
    [reflexivity|].
  unfold convertCookies. by rewrite convertCookies_from.
Qed.

(** ** Goto on an open session *)

Lemma Goto_open w bi o url hooks :
  deref bi w = Some o -> closed o = false ->
  Goto bi url hooks w =
    match chromedp.enter (Ctx o) (drv w) with
    | (Some err, d) => (Some err, after w d [EvRun (Ctx o)])
    | (None, d) =>
        match beforeNavigate_loop hooks (Ctx o) d with
        | (Some err, d') => (Some err, after w d' [EvRun (Ctx o)])
        | (None, d') =>
            (fst (chromedp.Navigate url (Ctx o) d'),
             after w (snd (chromedp.Navigate url (Ctx o) d'))
               [EvRun (Ctx o); EvNavigate (Ctx o) url])
        end
    end.
Proof.
  intros Ho Hc. unfold Goto, Closed, bind. rewrite Ho, Hc.
  cbn [fst snd]. rewrite Ho. run_monad.
  destruct (chromedp.enter (Ctx o) (drv w)) as [[e|] d];
    cbn [drv trace heap monitors fst snd]; [reflexivity|].
  destruct (beforeNavigate_loop hooks (Ctx o) d) as [[e|] d'];
    cbn [drv trace heap monitors fst snd]; [reflexivity|].
  destruct (chromedp.Navigate url (Ctx o) d') as [[e|] d''];
    cbn [drv trace heap monitors fst snd]; rewrite <- app_assoc; reflexivity.
Qed.

Lemma beforeNavigate_loop_app (pre post : list (Hook D)) ctx d :
  beforeNavigate_loop (pre ++ post) ctx d =
    match beforeNavigate_loop pre ctx d with
    | (Some err, d') => (Some err, d')
    | (None, d') => beforeNavigate_loop post ctx d'
    end.
Proof.
  revert d. induction pre as [|cb rest IH]; intros d; [done|].
  cbn [app beforeNavigate_loop]. destruct (cb ctx d) as [[e|] d']; [done|].
  apply IH.
Qed.

(** X3. When the callbacks before some callback succeed and that one fails,
    [Goto] on an open session returns its error as it is; the callbacks
    after it are not run (the driver is as the failing callback left it), and
    no navigation is issued: the only call recorded is [chromedp.Run]. *)
Theorem Goto_hook_abort w bi o url (pre post : list (Hook D)) (cb : Hook D) d0 d1 d2 err :
  deref bi w = Some o -> closed o = false ->
  chromedp.enter (Ctx o) (drv w) = (None, d0) ->
  beforeNavigate_loop pre (Ctx o) d0 = (None, d1) ->
  cb (Ctx o) d1 = (Some err, d2) ->
  Goto bi url (pre ++ cb :: post) w = (Some err, after w d2 [EvRun (Ctx o)]).
Proof.
  intros Ho Hc He Hpre Hcb. rewrite (Goto_open w bi o) by done. rewrite He.
  rewrite beforeNavigate_loop_app, Hpre. cbn [beforeNavigate_loop].
  by rewrite Hcb.
Qed.

(** X4. When every callback succeeds, [Goto] on an open session issues the
    navigation once, after the callbacks and on the driver state they left,
    and returns what the navigation returned. *)
Theorem Goto_navigates w bi o url (hooks : list (Hook D)) d0 d1 :
  deref bi w = Some o -> closed o = false ->
  chromedp.enter (Ctx o) (drv w) = (None, d0) ->
  beforeNavigate_loop hooks (Ctx o) d0 = (None, d1) ->
  Goto bi url hooks w =
    (fst (chromedp.Navigate url (Ctx o) d1),
     after w (snd (chromedp.Navigate url (Ctx o) d1))
       [EvRun (Ctx o); EvNavigate (Ctx o) url]).
Proof.
  intros Ho Hc He Hhooks. rewrite (Goto_open w bi o) by done.
  by rewrite He, Hhooks.
Qed.

(** ** SabaFetch *)

(** When the map has a "dst" entry after the evaluation, [SabaFetch] returns
    that entry as it is, a nil pointer for a null entry, whatever error
    [chromedp.Run] returned. *)
Lemma SabaFetch_dst w bi eval val :
  snd (fst (SabaFetch_eval bi eval w)) !! "dst" = Some val ->
  SabaFetch bi eval w = (val, snd (SabaFetch_eval bi eval w)).
Proof.
  unfold SabaFetch, bind.
  destruct (SabaFetch_eval bi eval w) as [[err data] w1].
  cbn [fst snd]. by intros ->.
Qed.

(** X6. When [chromedp.Run] refuses the context of the session, [SabaFetch]
    evaluates nothing and returns a response whose error field is the
    message of the refusal, with empty data and token. *)
Theorem SabaFetch_refused w bi o eval err d :
  deref bi w = Some o ->
  chromedp.enter (Ctx o) (drv w) = (Some err, d) ->
  SabaFetch bi eval w =
    (Some {| Data := ""; Error := error_Error err; Token := "" |},
     after w d [EvRun (Ctx o)]).
Proof.
  intros Ho He. unfold SabaFetch, SabaFetch_eval. run_monad.
  rewrite Ho, He. cbn [drv trace heap monitors fst snd].
  by rewrite lookup_empty.
Qed.

(** X5. When [chromedp.Run] refuses the context of an open session, [Goto]
    returns the refusal as it is and runs no callback and no navigation. *)
Theorem Goto_refused w bi o url (hooks : list (Hook D)) err d :
  deref bi w = Some o -> closed o = false ->
  chromedp.enter (Ctx o) (drv w) = (Some err, d) ->
  Goto bi url hooks w = (Some err, after w d [EvRun (Ctx o)]).
Proof.
  intros Ho Hc He. rewrite (Goto_open w bi o) by done. by rewrite He.
Qed.

(** X7. What [Err] makes of the response that [SabaFetch] builds when the
    evaluation left no "dst" entry: the error "nil Response" when
    [chromedp.Run] returned no error, the error of [chromedp.Run] when its
    message is not empty, and nil when its message is empty, in which case
    the failure is not visible through [Err]. *)
Theorem SabaFetch_no_dst_Err w bi eval :
  snd (fst (SabaFetch_eval bi eval w)) !! "dst" = None ->
  exists b,
    fst (SabaFetch bi eval w) = Some b
    /\ Err b =
         match fst (fst (SabaFetch_eval bi eval w)) with
         | None => Some (errors_New "nil Response")
         | Some err =>
             if decide (error_Error err = "") then None
             else Some (errors_New (error_Error err))
         end.
Proof.
  unfold SabaFetch, bind.
  destruct (SabaFetch_eval bi eval w) as [[err data] w1]. cbn [fst snd].
  intros ->. destruct err as [[msg]|]; cbn [ret fst error_Error].
  - eexists. split; [reflexivity|]. unfold Err. cbn [Error].
    destruct msg as [|a m]; [done|]. by rewrite decide_False.
  - eexists. split; [reflexivity|]. reflexivity.
Qed.

(** ** Close on an open session *)

(** What one [Close] does to an open session, in order: it calls
    [chromedp.Cancel]; when that fails it logs the failure and goes on; it
    calls the release function if there is one; it sets the flag; it logs
    the closing line. *)
Lemma Close_open_world w bi o :
  deref bi w = Some o -> closed o = false ->
  Close bi w =
    (tt,
     {| drv := release_effect o (snd (chromedp.Cancel (Ctx o) (drv w)));
        trace :=
          trace w
          ++ [EvChromedpCancel (Ctx o)]
          ++ match fst (chromedp.Cancel (Ctx o) (drv w)) with
             | Some e =>
                 [EvLog ("Failed to cancel chromedp context for browser instance "
                         +:+ fmt_d (ID o) +:+ ": " +:+ error_Error e)]
             | None => []
             end
          ++ release_events o
          ++ [EvLog ("Browser instance " +:+ fmt_d (ID o) +:+ " has been closed")];
        heap := <[bi := mark_closed o]> (heap w);
        monitors := monitors w |}).
Proof.
  intros Ho Hc. unfold Close. rewrite Ho, Hc. unfold deref in Ho.
  unfold release_effect, release_events, call_CancelFunc, set_closed. run_monad.
  destruct (chromedp.Cancel (Ctx o) (drv w)) as [[e|] d];
    destruct (Cancel o) as [[ctx alloc|g]|];
    cbn [drv trace heap monitors fst snd]; rewrite Ho;
    cbn [drv trace heap monitors fst snd]; rewrite <- ?app_assoc; reflexivity.
Qed.

(** X8. A failing [chromedp.Cancel] neither skips the release nor leaves the
    session open: [Close] logs the failure, then calls the release function
    of the session (if it has one) on the driver state that the failed
    cancel left, sets the flag and logs the closing line. *)
Theorem Close_survives_cancel_failure w bi o e :
  deref bi w = Some o -> closed o = false ->
  fst (chromedp.Cancel (Ctx o) (drv w)) = Some e ->
  fst (Closed bi (snd (Close bi w))) = true
  /\ drv (snd (Close bi w))
     = release_effect o (snd (chromedp.Cancel (Ctx o) (drv w)))
  /\ since w (snd (Close bi w))
     = [ EvChromedpCancel (Ctx o);
         EvLog ("Failed to cancel chromedp context for browser instance "
                +:+ fmt_d (ID o) +:+ ": " +:+ error_Error e) ]
       ++ release_events o
       ++ [EvLog ("Browser instance " +:+ fmt_d (ID o) +:+ " has been closed")].
Proof.
  intros Ho Hc He. split; [by apply (Close_sets_flag w bi o)|].
  rewrite (Close_open_world w bi o Ho Hc), He. cbn [snd drv trace].
  split; [reflexivity|]. unfold since. cbn [trace].
  by rewrite drop_app_length.
Qed.

(** X9. The monitor of a session that a caller already closed: once the context
    is done the goroutine takes its step, and the step changes nothing but
    the end of the goroutine itself (no call to the driver, no log line). *)
Theorem monitor_after_close w bi o :
  deref bi w = Some o -> closed o = true -> bi ∈ monitors w ->
  chromedp.Done (Ctx o) (drv w) = true ->
  monitorContext bi w = Some (retire bi w).
Proof.
  intros Ho Hc Hm Hd. unfold monitorContext. rewrite Ho, Hd.
  rewrite decide_True by done. by rewrite (Close_closed w bi o Ho Hc).
Qed.

(** ** What remote calls and histories leave alone *)

(** X10. [Goto], [GetCookies], [SabaFetch] and [CallJs2Str] change no session
    and end no monitor, whatever the driver answers: they never close the
    session they are called on. *)
Theorem remote_calls_keep_sessions w bi url (hooks : list (Hook D)) eval :
  (heap (snd (Goto bi url hooks w)) = heap w
   /\ monitors (snd (Goto bi url hooks w)) = monitors w)
  /\ (heap (snd (GetCookies bi w)) = heap w
      /\ monitors (snd (GetCookies bi w)) = monitors w)
  /\ (heap (snd (SabaFetch bi eval w)) = heap w
      /\ monitors (snd (SabaFetch bi eval w)) = monitors w)
  /\ (heap (snd (CallJs2Str bi eval w)) = heap w
      /\ monitors (snd (CallJs2Str bi eval w)) = monitors w).
Proof.
  split; [apply keeps_Goto|]. split; [apply keeps_GetCookies|].
  split; [apply keeps_SabaFetch | apply keeps_CallJs2Str].
Qed.

(** X11. Along every history a session keeps its identifier, its context and its
    release function, and once closed it stays closed: there is no way back
    to open. *)
Theorem session_fields_stable w bi o (cs : list (Cmd D)) bc :
  deref bi w = Some o ->
  exists o',
    deref bi (snd (run cs bc w)) = Some o'
    /\ ID o' = ID o /\ Ctx o' = Ctx o /\ Cancel o' = Cancel o
    /\ (closed o = true -> closed o' = true).
Proof. intros Ho. by apply (run_evolves cs bc w bi o). Qed.

(** ** Goroutines *)

Lemma Close_length w bi :
  length (heap (snd (Close bi w))) = length (heap w)
  /\ monitors (snd (Close bi w)) = monitors w.
Proof.
  destruct (deref bi w) as [o|] eqn:Ho.
  - destruct (Close_heap w bi o Ho) as [-> ->]. by rewrite length_insert.
  - by rewrite Close_unallocated.
Qed.

Lemma foldl_Close_length (entries : list (Z * loc)) w :
  length (heap (foldl (fun w e => snd (Close (snd e) w)) w entries))
    = length (heap w)
  /\ monitors (foldl (fun w e => snd (Close (snd e) w)) w entries) = monitors w.
Proof.
  revert w. induction entries as [|e rest IH]; intros w; [done|].
  cbn [foldl]. destruct (IH (snd (Close (snd e) w))) as [-> ->].
  apply Close_length.
Qed.

Lemma monitors_allocated_same w w' :
  monitors_allocated w ->
  length (heap w') = length (heap w) -> monitors w' = monitors w ->
  monitors_allocated w'.
Proof. intros Hma Hl Hm bi. rewrite Hl, Hm. apply Hma. Qed.

Lemma exec_monitors_allocated (c : Cmd D) bc w :
  monitors_allocated w -> monitors_allocated (snd (exec c bc w)).
Proof.
  intros Hma. destruct c; cbn [exec snd]; try done.
  - destruct (LaunchBrowser_cases options bc w)
      as [(err & w' & -> & Hh & Hm) | (browser & ctx & alloc & w1 & Hh & Hm & ->)];
      cbn [fst snd].
    + apply (monitors_allocated_same w); [done | by rewrite Hh | done].
    + intros bi. unfold NewBrowserInstance. cbn [snd heap monitors].
      rewrite length_app, Hh, Hm. cbn [length].
      rewrite elem_of_union, elem_of_singleton. intros [->|Hin]; [lia|].
      apply Hma in Hin. lia.
  - unfold CloseBrowser. destruct (instances bc !! id) as [instance|]; [|done].
    unfold bind, ret. pose proof (Close_length w instance) as [Hl Hm].
    destruct (Close instance w) as [[] w1]. cbn [fst snd] in *.
    by apply (monitors_allocated_same w).
  - unfold CloseAllBrowsers, bind, ret.
    rewrite CloseAllBrowsers_loop_unfold. cbn [fst snd].
    destruct (foldl_Close_length (order (instances bc)) w) as [Hl Hm].
    by apply (monitors_allocated_same w).
  - destruct (Close_length w bi) as [Hl Hm].
    by apply (monitors_allocated_same w).
  - destruct (keeps_Goto bi url beforeNavigate w) as [Hh Hm].
    apply (monitors_allocated_same w); [done | by rewrite Hh | done].
  - destruct (keeps_GetCookies bi w) as [Hh Hm].
    apply (monitors_allocated_same w); [done | by rewrite Hh | done].
  - destruct (keeps_SabaFetch bi eval w) as [Hh Hm].
    apply (monitors_allocated_same w); [done | by rewrite Hh | done].
  - destruct (keeps_CallJs2Str bi eval w) as [Hh Hm].
    apply (monitors_allocated_same w); [done | by rewrite Hh | done].
  - unfold monitorContext. destruct (deref bi w) as [o|]; [|done].
    destruct (decide _); [|done]. destruct (chromedp.Done _ _); [|done].
    destruct (Close_length w bi) as [Hl Hm].
    intros l. unfold retire. cbn [heap monitors]. rewrite Hl, Hm.
    rewrite elem_of_difference. intros [Hin _]. by apply Hma.
Qed.

Lemma run_monitors_allocated (cs : list (Cmd D)) bc w :
  monitors_allocated w -> monitors_allocated (snd (run cs bc w)).
Proof.
  revert bc w. induction cs as [|c rest IH]; intros bc w Hma; [done|].
  cbn [run]. pose proof (exec_monitors_allocated c bc w Hma) as H1.
  destruct (exec c bc w) as [[h bc1] w1]. cbn [snd] in H1.
  pose proof (IH bc1 w1 H1) as H2.
  destruct (run rest bc1 w1) as [[hs bc2] w2]. exact H2.
Qed.

(** X12. In every world that a history reaches, a session made by the earlier
    [NewBrowserInstance] is open and has no monitor: whatever then happens
    to its browser or context, no goroutine closes it. *)
Theorem Legacy_session_unmonitored (d : D) (cs : list (Cmd D)) bc
    id browser ctx cancel (f : D -> D) :
  let w := snd (run cs bc (boot d)) in
  let r := Legacy.NewBrowserInstance id browser ctx cancel w in
  fst (Closed (fst r) (snd r)) = false
  /\ monitorContext (fst r) (outside f (snd r)) = None
  /\ fst (Closed (fst r) (outside f (snd r))) = false.
Proof.
  intros w r.
  assert (monitors_allocated w) as Hma.
  { apply run_monitors_allocated. intros bi Hin. cbn in Hin.
    by apply not_elem_of_empty in Hin. }
  assert (deref (fst r) (snd r)
          = Some {| ID := id; Browser := browser; Ctx := ctx; Cancel := cancel;
                    closed := false |}) as Hd.
  { unfold r, Legacy.NewBrowserInstance, deref. cbn [fst snd heap].
    by rewrite list_lookup_middle. }
  split; [|split].
  - unfold Closed. cbn [fst]. by rewrite Hd.
  - apply monitorContext_retired. unfold r, Legacy.NewBrowserInstance, outside.
    cbn [fst snd monitors]. intros Hin. apply Hma in Hin. lia.
  - unfold Closed, outside, deref in *. cbn [fst heap]. by rewrite Hd.
Qed.

End Session.


(** * Further properties of the controller file *)

Section Controller.

Context {D : Type} `{!chromedp.Driver D}.

Implicit Types (w : World D) (bc : BrowserController).

(** ** A launch that succeeds *)

Lemma LaunchBrowser_success_world options bc w bi bc' w' :
  LaunchBrowser options bc w = ((Some bi, None), bc', w') ->
  bi = length (heap w)
  /\ bc' = {| instances := <[nextID bc := bi]> (instances bc);
              nextID := int_wrap (nextID bc + 1) |}
  /\ monitors w' = {[bi]} ∪ monitors w
  /\ exists browser,
       heap w' =
         heap w ++
         [{| ID := nextID bc; Browser := browser;
             Ctx := fst (chromedp.NewContext
                      (fst (chromedp.NewExecAllocator (allocatorOpts options) (drv w)))
                      (snd (chromedp.NewExecAllocator (allocatorOpts options) (drv w))));
             Cancel := Some (LaunchCancel
                      (fst (chromedp.NewContext
                         (fst (chromedp.NewExecAllocator (allocatorOpts options) (drv w)))
                         (snd (chromedp.NewExecAllocator (allocatorOpts options) (drv w)))))
                      (fst (chromedp.NewExecAllocator (allocatorOpts options) (drv w))));
             closed := false |}]
       /\ trace w' =
            trace w ++
            [ EvNewExecAllocator (allocatorOpts options);
              EvNewContext
                (fst (chromedp.NewExecAllocator (allocatorOpts options) (drv w)));
              EvRun (fst (chromedp.NewContext
                      (fst (chromedp.NewExecAllocator (allocatorOpts options) (drv w)))
                      (snd (chromedp.NewExecAllocator (allocatorOpts options) (drv w)))));
              EvNavigate (fst (chromedp.NewContext
                      (fst (chromedp.NewExecAllocator (allocatorOpts options) (drv w)))
                      (snd (chromedp.NewExecAllocator (allocatorOpts options) (drv w)))))
                "about:blank" ]
            ++ match HookFunc options with
               | Some hook =>
                   let ctx := fst (chromedp.NewContext
                      (fst (chromedp.NewExecAllocator (allocatorOpts options) (drv w)))
                      (snd (chromedp.NewExecAllocator (allocatorOpts options) (drv w)))) in
                   [EvRun ctx; EvFetchEnable ctx; EvListenTarget ctx (hook ctx)]
               | None => []
               end.
Proof.
  unfold LaunchBrowser.
  generalize (allocatorOpts options). intros opts.
  unfold LaunchBrowser_hook, Run, Tasks, Navigate, fetch_Enable,
    NewBrowserInstance, bind, call_, call, ret, log_Println, emit.
  cbn [drv trace heap monitors fst snd].
  destruct (chromedp.NewExecAllocator _ _) as [alloc d1].
  cbn [drv trace heap monitors fst snd].
  destruct (chromedp.NewContext _ _) as [ctx d2].
  cbn [drv trace heap monitors fst snd].
  destruct (chromedp.enter ctx d2) as [[e0|] d3];
    cbn [drv trace heap monitors fst snd]; [intros [=]|].
  destruct (chromedp.Navigate _ _ _) as [[e1|] d4];
    cbn [drv trace heap monitors fst snd]; [intros [=]|].
  destruct (HookFunc options) as [hook|];
    cbn [drv trace heap monitors fst snd].
  - destruct (chromedp.enter ctx d4) as [[e2|] d5];
      cbn [drv trace heap monitors fst snd]; [intros [=]|].
    destruct (chromedp.fetch_Enable _ _) as [[e3|] d6];
      cbn [drv trace heap monitors fst snd]; [intros [=]|].
    intros [= <- <- <-]. cbn [drv trace heap monitors fst snd].
    repeat (split; [reflexivity|]). eexists. split; [reflexivity|].
    rewrite <- !app_assoc. reflexivity.
  - intros [= <- <- <-]. cbn [drv trace heap monitors fst snd].
    repeat (split; [reflexivity|]). eexists. split; [reflexivity|].
    rewrite <- !app_assoc. reflexivity.
Qed.

(** X13. A successful launch makes these calls, in this order and no others:
    [NewExecAllocator] with the configuration built from the options,
    [NewContext] on the allocator it got, [Run] with the probe navigation to
    about:blank and, only when a hook is configured, [Run] with
    [fetch.Enable] followed by [ListenTarget] with the handler that the hook
    makes for the new context.  It allocates one session, open, under the
    current counter, and starts its monitor. *)
Theorem LaunchBrowser_success_calls options bc w bi bc' w' :
  LaunchBrowser options bc w = ((Some bi, None), bc', w') ->
  let alloc := launch_alloc options w in
  let ctx := launch_ctx options w in
  since w w' =
    [ EvNewExecAllocator (allocatorOpts options); EvNewContext alloc;
      EvRun ctx; EvNavigate ctx "about:blank" ]
    ++ match HookFunc options with
       | Some hook => [EvRun ctx; EvFetchEnable ctx; EvListenTarget ctx (hook ctx)]
       | None => []
       end
  /\ (exists browser,
        deref bi w' =
          Some {| ID := nextID bc; Browser := browser; Ctx := ctx;
                  Cancel := Some (LaunchCancel ctx alloc); closed := false |})
  /\ bi ∈ monitors w'
  /\ length (heap w') = S (length (heap w)).
Proof.
  intros HL alloc ctx.
  destruct (LaunchBrowser_success_world options bc w bi bc' w' HL)
    as (-> & _ & Hm & browser & Hh & Ht).
  split; [|split; [|split]].
  - unfold since. rewrite Ht, drop_app_length. reflexivity.
  - exists browser. unfold deref. rewrite Hh. by rewrite list_lookup_middle.
  - rewrite Hm. apply elem_of_union. left. by apply elem_of_singleton.
  - rewrite Hh, length_app. cbn. lia.
Qed.

(** X14. The session that a launch returns lets go of what that launch created:
    [Close] on it calls [chromedp.Cancel] on the context of the launch, then
    the [cancel()] of that context, then the [cancelAlloc()] of its
    allocator, each once and in this order, and the flag is set. *)
Theorem launched_session_release options bc w bi bc' w' :
  LaunchBrowser options bc w = ((Some bi, None), bc', w') ->
  let alloc := launch_alloc options w in
  let ctx := launch_ctx options w in
  List.filter is_teardown (since w' (snd (Close bi w')))
    = [EvChromedpCancel ctx; EvCancel ctx; EvCancelAlloc alloc]
  /\ drv (snd (Close bi w'))
     = chromedp.cancelAlloc alloc
         (chromedp.cancel ctx (snd (chromedp.Cancel ctx (drv w'))))
  /\ fst (Closed bi (snd (Close bi w'))) = true.
Proof.
  intros HL alloc ctx.
  destruct (LaunchBrowser_success_world options bc w bi bc' w' HL)
    as (-> & _ & _ & browser & Hh & _).
  assert (deref (length (heap w)) w' =
            Some {| ID := nextID bc; Browser := browser; Ctx := ctx;
                    Cancel := Some (LaunchCancel ctx alloc); closed := false |})
    as Ho.
  { unfold deref. rewrite Hh. by rewrite list_lookup_middle. }
  split; [|split].
  - rewrite (Close_open_world w' _ _ Ho eq_refl).
    unfold since, release_events. cbn [snd trace Ctx Cancel ID].
    rewrite drop_app_length.
    by destruct (fst (chromedp.Cancel ctx (drv w'))).
  - by rewrite (Close_open_world w' _ _ Ho eq_refl).
  - by apply (Close_sets_flag w' _ _ Ho).
Qed.

(** X15. A launch that fails consumes nothing: it returns no session, the
    registry and its counter are as before (the next launch is offered the
    same handle), no session was allocated and no monitor started. *)
Theorem LaunchBrowser_failure_consumes_nothing options bc w r bc' w' err :
  LaunchBrowser options bc w = ((r, Some err), bc', w') ->
  r = None /\ bc' = bc /\ nextID bc' = nextID bc
  /\ heap w' = heap w /\ monitors w' = monitors w.
Proof.
  intros HL.
  destruct (LaunchBrowser_failure options bc w r bc' w' err HL)
    as (-> & -> & Hh & Hm & _).
  done.
Qed.

(** ** The registry along histories *)

Lemma registry_ok_mono bc bc' w w' :
  registry_ok bc w -> evolves w w' ->
  nextID bc' = nextID bc ->
  (forall id instance, instances bc' !! id = Some instance ->
                       instances bc !! id = Some instance) ->
  registry_ok bc' w'.
Proof.
  intros [Hpos Hok] Hev Hn Hsub. split; [by rewrite Hn|].
  intros id instance Hl. destruct (Hok id instance (Hsub _ _ Hl)) as (Hr & o & Ho & Hid).
  rewrite Hn. split; [done|].
  destruct (Hev _ _ Ho) as (o' & Ho' & Hid' & _). exists o'. split; [done|congruence].
Qed.

Lemma exec_registry_ok (c : Cmd D) bc w :
  registry_ok bc w ->
  (fst (fst (exec c bc w)) <> None -> (nextID bc < int_max)%Z) ->
  registry_ok (snd (fst (exec c bc w))) (snd (exec c bc w)).
Proof.
  intros Hok Hb. pose proof (exec_evolves c bc w) as Hev.
  destruct c;
    try (apply (registry_ok_mono bc bc w); done).
  - unfold exec in *.
    destruct (LaunchBrowser_cases options bc w)
      as [(err & w' & E & _) | (browser & ctx & alloc & w1 & Hh & _ & E)];
      rewrite E in *; cbn [fst snd] in *.
    + by apply (registry_ok_mono bc bc w).
    + assert (issued (Some (length (heap w)))
                (snd (NewBrowserInstance (nextID bc) browser ctx
                        (Some (LaunchCancel ctx alloc)) w1)) <> None) as Hiss.
      { unfold issued. rewrite <- Hh, NewBrowserInstance_deref. done. }
      specialize (Hb Hiss). destruct Hok as [Hpos Hok].
      assert (int_wrap (nextID bc + 1) = (nextID bc + 1)%Z) as Hw.
      { unfold int_max in Hb. apply int_wrap_small. lia. }
      split; cbn [nextID instances]; rewrite Hw; [lia|].
      intros id instance Hl.
      apply lookup_insert_Some in Hl as [[<- <-]|[_ Hl]].
      * split; [lia|]. rewrite <- Hh, NewBrowserInstance_deref. eauto.
      * destruct (Hok _ _ Hl) as (Hr & o & Ho & Hid). split; [lia|].
        destruct (Hev _ _ Ho) as (o' & Ho' & Hid' & _).
        exists o'. split; [done|congruence].
  - unfold exec, CloseBrowser in *.
    destruct (instances bc !! id) as [instance|] eqn:Hl.
    + unfold bind, ret in *. destruct (Close instance w) as [[] w1].
      cbn [fst snd] in *.
      apply (registry_ok_mono bc _ w); [done..|].
      intros id' i' Hl'. cbn [instances] in Hl'.
      by apply lookup_delete_Some in Hl' as [_ ?].
    + by apply (registry_ok_mono bc bc w).
  - unfold exec, CloseAllBrowsers, bind, ret in *.
    rewrite CloseAllBrowsers_loop_unfold in *. cbn [fst snd] in *.
    apply (registry_ok_mono bc _ w); [done..|].
    intros id' i' Hl'. cbn [instances] in Hl'.
    rewrite foldl_delete_lookup in Hl'.
    by destruct (decide _).
Qed.

Lemma run_registry_ok (cs : list (Cmd D)) bc w :
  registry_ok bc w ->
  (nextID bc + Z.of_nat (length (handles cs bc w)) <= int_max)%Z ->
  registry_ok (snd (fst (run cs bc w))) (snd (run cs bc w)).
Proof.
  unfold handles. revert bc w.
  induction cs as [|c rest IH]; intros bc w Hok Hmax; [done|].
  cbn [run] in *.
  pose proof (exec_handle c bc w) as Hc.
  pose proof (exec_registry_ok c bc w Hok) as H1.
  destruct (exec c bc w) as [[h bc1] w1]. cbn [fst snd] in *.
  specialize (IH bc1 w1).
  destruct (run rest bc1 w1) as [[hs bc2] w2]. cbn [fst snd] in *.
  destruct Hc as [[-> Hn]|[-> Hn]].
  - apply IH; [by apply H1 | by rewrite Hn].
  - cbn [length] in Hmax.
    assert (nextID bc < int_max)%Z as Hlt by lia.
    assert (registry_ok bc1 w1) as Hok1 by (by apply H1).
    apply IH; [done|].
    rewrite Hn, int_wrap_small; [lia|].
    destruct Hok as [Hpos _]. unfold int_max in *. lia.
Qed.

(** X16. Along every history from an empty registry, as long as the [int]
    counter has not wrapped: every key of the registry is a handle that was
    issued (between 1 and the counter), the session stored under a key is
    allocated and carries that key as its [ID], and no session is stored
    under two keys. *)
Theorem registry_keys_match_sessions (d : D) (cs : list (Cmd D)) :
  (Z.of_nat (length (handles cs NewBrowserController (boot d))) < int_max)%Z ->
  let bc := snd (fst (run cs NewBrowserController (boot d))) in
  let w := snd (run cs NewBrowserController (boot d)) in
  (forall id instance,
     instances bc !! id = Some instance ->
     (1 <= id < nextID bc)%Z
     /\ exists o, deref instance w = Some o /\ ID o = id)
  /\ (forall id1 id2 instance,
        instances bc !! id1 = Some instance ->
        instances bc !! id2 = Some instance -> id1 = id2).
Proof.
  intros Hlen bc w.
  assert (registry_ok bc w) as [_ Hok].
  { apply run_registry_ok.
    - split; [done|]. intros id instance Hl. cbn in Hl.
      by rewrite lookup_empty in Hl.
    - change (nextID NewBrowserController) with 1%Z. lia. }
  split; [exact Hok|].
  intros id1 id2 instance H1 H2.
  destruct (Hok _ _ H1) as (_ & o1 & Ho1 & <-).
  destruct (Hok _ _ H2) as (_ & o2 & Ho2 & <-).
  congruence.
Qed.

(** X17. In a registry kept that way and below the largest [int], a successful
    launch registers the session it returns under the counter: the lookup of
    that handle gives the session, the other lookups are as before, the
    count grows by one, and the counter by one. *)
Theorem LaunchBrowser_registers options bc w bi bc' w' :
  registry_ok bc w -> (nextID bc < int_max)%Z ->
  LaunchBrowser options bc w = ((Some bi, None), bc', w') ->
  GetBrowserInstance (nextID bc) bc' = (Some bi, None)
  /\ (forall id, id <> nextID bc ->
        GetBrowserInstance id bc' = GetBrowserInstance id bc)
  /\ GetBrowserCount bc' = (GetBrowserCount bc + 1)%Z
  /\ nextID bc' = (nextID bc + 1)%Z
  /\ fst (Closed bi w') = false.
Proof.
  intros [Hpos Hok] Hb HL.
  destruct (LaunchBrowser_success_world options bc w bi bc' w' HL)
    as (-> & -> & _ & browser & Hh & _).
  assert (instances bc !! nextID bc = None) as Hfresh.
  { destruct (instances bc !! nextID bc) as [instance|] eqn:Hl; [|done].
    destruct (Hok _ _ Hl) as [Hr _]. lia. }
  unfold GetBrowserInstance, GetBrowserCount. cbn [instances nextID].
  split; [by rewrite lookup_insert_eq|]. split; [|split; [|split]].
  - intros id Hne. by rewrite lookup_insert_ne.
  - rewrite map_size_insert_None by done. lia.
  - unfold int_max in Hb. apply int_wrap_small. lia.
  - unfold Closed, deref. cbn [fst]. rewrite Hh.
    by rewrite list_lookup_middle.
Qed.

(** ** CloseBrowser *)

(** X18. [CloseBrowser id] touches one entry and one session: the lookups of the
    other handles are as before, every session at another address is as
    before, and no monitor is ended. *)
Theorem CloseBrowser_others_untouched id instance bc w :
  instances bc !! id = Some instance ->
  (forall id', id' <> id ->
     GetBrowserInstance id' (snd (fst (CloseBrowser id bc w)))
     = GetBrowserInstance id' bc)
  /\ (forall bi, bi <> instance ->
        deref bi (snd (CloseBrowser id bc w)) = deref bi w)
  /\ monitors (snd (CloseBrowser id bc w)) = monitors w.
Proof.
  intros Hl. unfold CloseBrowser. rewrite Hl. unfold bind, ret.
  pose proof (Close_deref_other w instance) as Hother.
  pose proof (Close_length w instance) as [_ Hm].
  destruct (Close instance w) as [[] w1]. cbn [fst snd] in *.
  split; [|split; [|done]].
  - intros id' Hne. unfold GetBrowserInstance. cbn [instances].
    by rewrite lookup_delete_ne.
  - intros bi Hne. by apply Hother.
Qed.

(** X19. Closing the same handle twice: the second [CloseBrowser] returns the
    not-found error and changes nothing. *)
Theorem CloseBrowser_twice id instance bc w :
  instances bc !! id = Some instance ->
  CloseBrowser id (snd (fst (CloseBrowser id bc w))) (snd (CloseBrowser id bc w))
  = (Some (errNotExist id), snd (fst (CloseBrowser id bc w)),
     snd (CloseBrowser id bc w)).
Proof.
  intros Hl.
  assert (CloseBrowser id bc w =
            (None, {| instances := delete id (instances bc); nextID := nextID bc |},
             snd (Close instance w))) as ->.
  { unfold CloseBrowser. rewrite Hl. unfold bind, ret.
    by destruct (Close instance w) as [[] w1]. }
  cbn [fst snd]. unfold CloseBrowser. cbn [instances].
  by rewrite lookup_delete_eq.
Qed.

(** X20. [CloseBrowser] on a session that is already closed (by its monitor, or
    by a caller holding the pointer) only removes the entry: the driver is
    not called and nothing is logged. *)
Theorem CloseBrowser_closed_session id instance o bc w :
  instances bc !! id = Some instance ->
  deref instance w = Some o -> closed o = true ->
  CloseBrowser id bc w =
    (None, {| instances := delete id (instances bc); nextID := nextID bc |}, w).
Proof.
  intros Hl Ho Hc. unfold CloseBrowser. rewrite Hl. unfold bind, ret.
  by rewrite (Close_closed w instance o Ho Hc).
Qed.

(** ** CloseAllBrowsers *)

Lemma foldl_delete_all (order : RangeOrder) (m : gmap Z loc) :
  foldl (fun m e => delete (fst e) m) m (order m) = ∅.
Proof.
  apply map_empty. intros k. rewrite foldl_delete_lookup.
  destruct (decide _) as [|Hnin]; [done|].
  destruct (m !! k) as [instance|] eqn:Hl; [|done].
  exfalso. apply Hnin.
  apply (list_elem_of_fmap_2 fst _ (k, instance)).
  rewrite (range_perm order). by apply elem_of_map_to_list.
Qed.

Lemma range_empty (order : RangeOrder) : order ∅ = [].
Proof.
  apply Permutation_nil_r. rewrite (range_perm order).
  by rewrite map_to_list_empty.
Qed.

(** X21. [CloseAllBrowsers] on an empty registry does nothing at all, and so
    does a second [CloseAllBrowsers] right after a first one, whatever it
    closed; the counter is never reset. *)
Theorem CloseAllBrowsers_twice (order order' : RangeOrder) bc w :
  (instances bc = ∅ ->
   CloseAllBrowsers order bc w
   = ({| instances := ∅; nextID := nextID bc |}, w))
  /\ CloseAllBrowsers order'
       (fst (CloseAllBrowsers order bc w)) (snd (CloseAllBrowsers order bc w))
     = CloseAllBrowsers order bc w
  /\ nextID (fst (CloseAllBrowsers order bc w)) = nextID bc.
Proof.
  assert (forall n w0,
            CloseAllBrowsers order' {| instances := ∅; nextID := n |} w0
            = ({| instances := ∅; nextID := n |}, w0)) as Hnoop.
  { intros n w0. unfold CloseAllBrowsers, bind, ret. cbn [instances nextID].
    by rewrite range_empty. }
  split; [|split].
  - intros He. unfold CloseAllBrowsers, bind, ret. rewrite He.
    by rewrite range_empty.
  - assert (CloseAllBrowsers order bc w =
              ({| instances := ∅; nextID := nextID bc |},
               foldl (fun w e => snd (Close (snd e) w)) w (order (instances bc))))
      as ->.
    { unfold CloseAllBrowsers, bind, ret.
      rewrite CloseAllBrowsers_loop_unfold. by rewrite foldl_delete_all. }
    cbn [fst snd]. apply Hnoop.
  - unfold CloseAllBrowsers, bind, ret.
    by rewrite CloseAllBrowsers_loop_unfold.
Qed.

Lemma count_events_app p (t1 t2 : list Event) :
  count_events p (t1 ++ t2) = count_events p t1 + count_events p t2.
Proof. unfold count_events. by rewrite List.filter_app, length_app. Qed.

Lemma open_sessions_frame (entries : list (Z * loc)) w w' :
  (forall e, e ∈ entries -> deref (snd e) w' = deref (snd e) w) ->
  open_sessions entries w' = open_sessions entries w.
Proof.
  induction entries as [|e rest IH]; intros Hsame; [done|].
  cbn [open_sessions]. unfold is_open at 1 2. rewrite Hsame by left.
  rewrite IH; [done|]. intros e' Hin. apply Hsame. by right.
Qed.

Lemma open_sessions_perm (l1 l2 : list (Z * loc)) w :
  l1 ≡ₚ l2 -> open_sessions l1 w = open_sessions l2 w.
Proof.
  induction 1 as [|e l1 l2 _ IH|e1 e2 l|l1 l2 l3 _ IH1 _ IH2];
    cbn [open_sessions]; [done | by rewrite IH | lia | congruence].
Qed.

(** What one [Close] adds to the trace: one [chromedp.Cancel] if the session
    was open, none otherwise. *)
Lemma Close_cancel_count w bi :
  exists evs,
    trace (snd (Close bi w)) = trace w ++ evs
    /\ count_events is_chromedp_Cancel evs = (if is_open w bi then 1 else 0).
Proof.
  unfold is_open. destruct (deref bi w) as [o|] eqn:Ho.
  - destruct (closed o) eqn:Hc; cbn [negb].
    + rewrite (Close_closed w bi o Ho Hc). exists []. by rewrite app_nil_r.
    + destruct (Close_open w bi o Ho Hc) as (d & evs & -> & H1 & _).
      by exists evs.
  - rewrite Close_unallocated by done. exists []. by rewrite app_nil_r.
Qed.

Lemma foldl_Close_cancel_count (entries : list (Z * loc)) w :
  NoDup (entries.*2) ->
  exists evs,
    trace (foldl (fun w e => snd (Close (snd e) w)) w entries) = trace w ++ evs
    /\ count_events is_chromedp_Cancel evs = open_sessions entries w.
Proof.
  revert w. induction entries as [|e rest IH]; intros w Hnd.
  - exists []. by rewrite app_nil_r.
  - cbn [fmap list_fmap] in Hnd. apply NoDup_cons in Hnd as [Hnin Hnd].
    cbn [foldl open_sessions].
    destruct (Close_cancel_count w (snd e)) as (evs1 & Ht1 & Hc1).
    destruct (IH (snd (Close (snd e) w)) Hnd) as (evs2 & Ht2 & Hc2).
    exists (evs1 ++ evs2). split.
    + by rewrite Ht2, Ht1, app_assoc.
    + rewrite count_events_app, Hc1, Hc2. f_equal.
      apply open_sessions_frame. intros e' Hin. apply Close_deref_other.
      intros Heq. apply Hnin. rewrite <- Heq.
      by apply (list_elem_of_fmap_2 snd).
Qed.

(** X22. [CloseAllBrowsers] cancels each registered session once: when no
    session is registered under two handles, the number of
    [chromedp.Cancel] calls it makes is the number of registered sessions
    that were open when it started; the sessions already closed get none. *)
Theorem CloseAllBrowsers_cancels_once (order : RangeOrder) bc w :
  (forall id1 id2 instance,
     instances bc !! id1 = Some instance ->
     instances bc !! id2 = Some instance -> id1 = id2) ->
  count_events is_chromedp_Cancel (since w (snd (CloseAllBrowsers order bc w)))
  = open_sessions (map_to_list (instances bc)) w.
Proof.
  intros Hinj. unfold CloseAllBrowsers, bind, ret.
  rewrite CloseAllBrowsers_loop_unfold. cbn [fst snd].
  destruct (foldl_Close_cancel_count (order (instances bc)) w) as (evs & Ht & Hc).
  - apply NoDup_fmap_2_strong.
    + intros [id1 l1] [id2 l2] H1 H2 Heq. cbn in Heq. subst l2.
      rewrite (range_perm order) in H1, H2.
      apply elem_of_map_to_list in H1, H2.
      by rewrite (Hinj id1 id2 l1 H1 H2).
    + rewrite (range_perm order). apply NoDup_map_to_list.
  - unfold since. rewrite Ht, drop_app_length, Hc.
    apply open_sessions_perm, range_perm.
Qed.

(** ** The count *)

Lemma exec_count (c : Cmd D) bc w :
  registry_ok bc w -> keeps_entries c = true ->
  (fst (fst (exec c bc w)) <> None -> (nextID bc < int_max)%Z) ->
  GetBrowserCount (snd (fst (exec c bc w)))
  = (GetBrowserCount bc
     + (if fst (fst (exec c bc w)) is Some _ then 1 else 0))%Z.
Proof.
  intros Hok Hk Hb. destruct c; try discriminate; cbn [exec fst snd]; try lia.
  unfold exec in *.
  destruct (LaunchBrowser options bc w) as [[[r err] bc'] w'] eqn:HL.
  cbn [fst snd] in *.
  destruct (LaunchBrowser_cases options bc w)
    as [(err0 & w0 & E & _) | (browser & ctx & alloc & w1 & Hh & _ & E)];
    rewrite E in HL; injection HL as <- <- <- <-; cbn [fst snd] in *.
  - cbn [issued]. lia.
  - assert (issued (Some (length (heap w)))
              (snd (NewBrowserInstance (nextID bc) browser ctx
                      (Some (LaunchCancel ctx alloc)) w1)) = Some (nextID bc))
      as Hiss.
    { unfold issued. rewrite <- Hh, NewBrowserInstance_deref. done. }
    unfold NewBrowserInstance in Hiss. cbn [fst snd] in Hiss.
    rewrite Hiss in *. unfold GetBrowserCount. cbn [instances].
    destruct Hok as [_ Hok].
    rewrite map_size_insert_None; [lia|].
    destruct (instances bc !! nextID bc) as [instance|] eqn:Hl; [|done].
    destruct (Hok _ _ Hl) as [Hr _]. lia.
Qed.

Lemma run_count (cs : list (Cmd D)) bc w :
  registry_ok bc w -> Forall (fun c => keeps_entries c = true) cs ->
  (nextID bc + Z.of_nat (length (handles cs bc w)) <= int_max)%Z ->
  GetBrowserCount (snd (fst (run cs bc w)))
  = (GetBrowserCount bc + Z.of_nat (length (handles cs bc w)))%Z.
Proof.
  unfold handles. revert bc w.
  induction cs as [|c rest IH]; intros bc w Hok Hk Hmax.
  - cbn. lia.
  - apply Forall_cons in Hk as [Hkc Hk]. cbn [run] in *.
    pose proof (exec_handle c bc w) as Hc.
    pose proof (exec_registry_ok c bc w Hok) as H1.
    pose proof (exec_count c bc w Hok Hkc) as H2.
    destruct (exec c bc w) as [[h bc1] w1]. cbn [fst snd] in *.
    specialize (IH bc1 w1).
    destruct (run rest bc1 w1) as [[hs bc2] w2]. cbn [fst snd] in *.
    destruct Hc as [[-> Hn]|[-> Hn]].
    + rewrite IH; [|by apply H1|done|by rewrite Hn].
      rewrite H2 by done. lia.
    + cbn [length] in *.
      assert (nextID bc < int_max)%Z as Hlt by lia.
      rewrite IH; [|by apply H1|done|].
      * rewrite H2 by done. lia.
      * rewrite Hn, int_wrap_small; [lia|].
        destruct Hok as [Hpos _]. unfold int_max in *. lia.
Qed.

(** X23. As long as no step is a [CloseBrowser] or a [CloseAllBrowsers], the
    count is the number of launches that succeeded: a failed launch does not
    count, and neither a session's own [Close] nor its monitor takes a
    session out of the count. *)
Theorem count_is_successful_launches (d : D) (cs : list (Cmd D)) :
  Forall (fun c => keeps_entries c = true) cs ->
  (Z.of_nat (length (handles cs NewBrowserController (boot d))) < int_max)%Z ->
  GetBrowserCount (snd (fst (run cs NewBrowserController (boot d))))
  = Z.of_nat (length (handles cs NewBrowserController (boot d))).
Proof.
  intros Hk Hlen. rewrite run_count; [done| |done|].
  - split; [done|]. intros id instance Hl. cbn in Hl.
    by rewrite lookup_empty in Hl.
  - change (nextID NewBrowserController) with 1%Z. lia.
Qed.

End Controller.


(** * The further theorems at concrete inputs *)

Lemma SabaFetch_dst_witness :
  fst (SabaFetch 0 "fetchIt()" Scene.answered) = Some Scene.answer
  /\ fst (fst (SabaFetch_eval 0 "fetchIt()" Scene.answered))
     = Some Stub.decode_failure
  /\ fst (SabaFetch 0 "null" Scene.null_answer) = None.
Proof.
  split; [|split].
  - rewrite (SabaFetch_dst Scene.answered 0 "fetchIt()" (Some Scene.answer))
      by (vm_compute; reflexivity).
    reflexivity.
  - vm_compute. reflexivity.
  - rewrite (SabaFetch_dst Scene.null_answer 0 "null" None)
      by (vm_compute; reflexivity).
    reflexivity.
Defined.

Lemma SabaFetch_refused_witness :
  SabaFetch 0 "1+1" Stub.released
  = (Some {| Data := ""; Error := "context canceled"; Token := "" |},
     after Stub.released (drv Stub.released) [EvRun 1]).
Proof.
  apply (SabaFetch_refused Stub.released 0
           {| ID := 1; Browser := Some 1; Ctx := 1;
              Cancel := Some (LaunchCancel 1 0); closed := true |}
           "1+1" Stub.canceled (drv Stub.released));
    vm_compute; reflexivity.
Defined.

Lemma monitor_after_close_witness :
  fst (Closed 0 Stub.released) = true
  /\ monitorContext 0 Stub.released = Some (retire 0 Stub.released)
  /\ trace (retire 0 Stub.released) = trace Stub.released.
Proof.
  split; [vm_compute; reflexivity|]. split; [|reflexivity].
  apply (monitor_after_close Stub.released 0
           {| ID := 1; Browser := Some 1; Ctx := 1;
              Cancel := Some (LaunchCancel 1 0); closed := true |}).
  - vm_compute. reflexivity.
  - reflexivity.
  - apply (bool_decide_unpack _). vm_compute. exact I.
  - vm_compute. reflexivity.
Defined.

Lemma session_fields_stable_witness :
  exists o',
    deref 0 (snd (run Stub.history Stub.registry Stub.launched)) = Some o'
    /\ ID o' = 1%Z /\ Ctx o' = 1 /\ Cancel o' = Some (LaunchCancel 1 0).
Proof.
  destruct (session_fields_stable Stub.launched 0
              {| ID := 1; Browser := Some 1; Ctx := 1;
                 Cancel := Some (LaunchCancel 1 0); closed := false |}
              Stub.history Stub.registry)
    as (o' & H1 & H2 & H3 & H4 & _).
  { vm_compute. reflexivity. }
  exists o'. repeat split; assumption.
Defined.

Lemma LaunchBrowser_success_calls_witness :
  since (boot Stub.healthy)
        (snd (LaunchBrowser Stub.hooked NewBrowserController (boot Stub.healthy)))
  = [ EvNewExecAllocator (allocatorOpts (D := Stub.State) Stub.hooked);
      EvNewContext 0; EvRun 1; EvNavigate 1 "about:blank";
      EvRun 1; EvFetchEnable 1; EvListenTarget 1 1 ]
  /\ 0 ∈ monitors
          (snd (LaunchBrowser Stub.hooked NewBrowserController (boot Stub.healthy))).
Proof.
  destruct (LaunchBrowser_success_calls Stub.hooked NewBrowserController
              (boot Stub.healthy) 0
              (snd (fst (LaunchBrowser Stub.hooked NewBrowserController
                           (boot Stub.healthy))))
              (snd (LaunchBrowser Stub.hooked NewBrowserController
                      (boot Stub.healthy))))
    as (Ht & _ & Hm & _).
  { vm_compute. reflexivity. }
  split; [exact Ht | exact Hm].
Defined.

Lemma launched_session_release_witness :
  List.filter is_teardown (since Stub.launched (snd (Close 0 Stub.launched)))
  = [EvChromedpCancel 1; EvCancel 1; EvCancelAlloc 0]
  /\ fst (Closed 0 (snd (Close 0 Stub.launched))) = true.
Proof.
  destruct (launched_session_release Stub.plain NewBrowserController
              (boot Stub.healthy) 0 Stub.registry Stub.launched)
    as (Hf & _ & Hc).
  { vm_compute. reflexivity. }
  split; [exact Hf | exact Hc].
Defined.

Lemma LaunchBrowser_failure_consumes_nothing_witness :
  fst (fst (exec (CmdLaunch Stub.hooked) NewBrowserController Stub.enable_fails))
    = None
  /\ snd (fst (LaunchBrowser Stub.hooked NewBrowserController Stub.enable_fails))
     = NewBrowserController
  /\ heap (snd (LaunchBrowser Stub.hooked NewBrowserController Stub.enable_fails))
     = [].
Proof.
  destruct (LaunchBrowser_failure_consumes_nothing Stub.hooked
              NewBrowserController Stub.enable_fails None
              (snd (fst (LaunchBrowser Stub.hooked NewBrowserController
                           Stub.enable_fails)))
              (snd (LaunchBrowser Stub.hooked NewBrowserController
                      Stub.enable_fails))
              Stub.enable_failure)
    as (_ & Hbc & _ & Hh & _).
  { vm_compute. reflexivity. }
  split; [vm_compute; reflexivity|]. split; [exact Hbc | exact Hh].
Defined.

Lemma registry_keys_match_sessions_witness :
  (Z.of_nat (length (handles Stub.history NewBrowserController
                       (boot Stub.healthy))) < int_max)%Z
  /\ forall id instance,
       instances (snd (fst (run Stub.history NewBrowserController
                              (boot Stub.healthy)))) !! id = Some instance ->
       exists o,
         deref instance (snd (run Stub.history NewBrowserController
                                (boot Stub.healthy))) = Some o
         /\ ID o = id.
Proof.
  assert (Z.of_nat (length (handles Stub.history NewBrowserController
                              (boot Stub.healthy))) < int_max)%Z as Hlen
    by (vm_compute; reflexivity).
  split; [exact Hlen|].
  destruct (registry_keys_match_sessions Stub.healthy Stub.history Hlen)
    as [Hok _].
  intros id instance Hl. by destruct (Hok id instance Hl) as [_ Ho].
Defined.

Lemma LaunchBrowser_registers_witness :
  GetBrowserCount Scene.two_registry = 2%Z
  /\ GetBrowserInstance 3
       (snd (fst (LaunchBrowser Stub.full Scene.two_registry Scene.two_world)))
     = (Some 2, None)
  /\ GetBrowserCount
       (snd (fst (LaunchBrowser Stub.full Scene.two_registry Scene.two_world)))
     = 3%Z.
Proof.
  split; [vm_compute; reflexivity|].
  destruct (LaunchBrowser_registers Stub.full Scene.two_registry Scene.two_world
              2
              (snd (fst (LaunchBrowser Stub.full Scene.two_registry
                           Scene.two_world)))
              (snd (LaunchBrowser Stub.full Scene.two_registry Scene.two_world)))
    as (Hget & _ & Hcount & _).
  - apply (run_registry_ok Scene.two NewBrowserController (boot Stub.healthy)).
    + split; [done|]. intros id instance Hl. cbn in Hl.
      by rewrite lookup_empty in Hl.
    + vm_compute. discriminate.
  - vm_compute. reflexivity.
  - vm_compute. reflexivity.
  - split; [exact Hget|]. rewrite Hcount. vm_compute. reflexivity.
Defined.

Lemma CloseBrowser_others_untouched_witness :
  GetBrowserInstance 2 (snd (fst (CloseBrowser 1 Scene.two_registry Scene.two_world)))
    = (Some 1, None)
  /\ fst (Closed 1 (snd (CloseBrowser 1 Scene.two_registry Scene.two_world)))
     = false
  /\ fst (Closed 0 (snd (CloseBrowser 1 Scene.two_registry Scene.two_world)))
     = true.
Proof.
  destruct (CloseBrowser_others_untouched 1 0 Scene.two_registry Scene.two_world)
    as (Hget & Hder & _).
  { vm_compute. reflexivity. }
  split; [|split].
  - rewrite (Hget 2%Z) by discriminate. vm_compute. reflexivity.
  - unfold Closed. cbn [fst]. rewrite (Hder 1) by discriminate.
    vm_compute. reflexivity.
  - vm_compute. reflexivity.
Defined.

Lemma CloseBrowser_twice_witness :
  fst (fst (CloseBrowser 1 Stub.registry Stub.launched)) = None
  /\ fst (fst (CloseBrowser 1
                 (snd (fst (CloseBrowser 1 Stub.registry Stub.launched)))
                 (snd (CloseBrowser 1 Stub.registry Stub.launched))))
     = Some (errNotExist 1).
Proof.
  split; [vm_compute; reflexivity|].
  rewrite (CloseBrowser_twice 1 0 Stub.registry Stub.launched)
    by (vm_compute; reflexivity).
  reflexivity.
Defined.

Lemma CloseBrowser_closed_session_witness :
  CloseBrowser 1 Stub.registry Stub.released
  = (None, {| instances := delete 1%Z (instances Stub.registry);
              nextID := nextID Stub.registry |}, Stub.released)
  /\ GetBrowserCount Stub.registry = 1%Z.
Proof.
  split; [|vm_compute; reflexivity].
  apply (CloseBrowser_closed_session 1 0
           {| ID := 1; Browser := Some 1; Ctx := 1;
              Cancel := Some (LaunchCancel 1 0); closed := true |});
    vm_compute; reflexivity.
Defined.

Lemma CloseAllBrowsers_cancels_once_witness :
  GetBrowserCount Scene.two_registry = 2%Z
  /\ open_sessions (map_to_list (instances Scene.two_registry)) Scene.half_closed
     = 1
  /\ count_events is_chromedp_Cancel
       (since Scene.half_closed
          (snd (CloseAllBrowsers Stub.in_order Scene.two_registry
                  Scene.half_closed)))
     = 1.
Proof.
  split; [vm_compute; reflexivity|]. split; [vm_compute; reflexivity|].
  rewrite (CloseAllBrowsers_cancels_once Stub.in_order Scene.two_registry
             Scene.half_closed).
  - vm_compute. reflexivity.
  - intros id1 id2 instance H1 H2.
    assert (registry_ok Scene.two_registry Scene.two_world) as [_ Hok].
    { apply (run_registry_ok Scene.two NewBrowserController (boot Stub.healthy)).
      - split; [done|]. intros id instance' Hl. cbn in Hl.
        by rewrite lookup_empty in Hl.
      - vm_compute. discriminate. }
    destruct (Hok _ _ H1) as (_ & o1 & Ho1 & <-).
    destruct (Hok _ _ H2) as (_ & o2 & Ho2 & <-).
    congruence.
Defined.

Lemma count_is_successful_launches_witness :
  handles Scene.eventful NewBrowserController (boot Stub.healthy) = [1%Z]
  /\ fst (Closed 0 (snd (run Scene.eventful NewBrowserController
                             (boot Stub.healthy)))) = true
  /\ GetBrowserCount (snd (fst (run Scene.eventful NewBrowserController
                                   (boot Stub.healthy)))) = 1%Z.
Proof.
  split; [vm_compute; reflexivity|]. split; [vm_compute; reflexivity|].
  rewrite (count_is_successful_launches Stub.healthy Scene.eventful).
  - vm_compute. reflexivity.
  - repeat constructor.
  - vm_compute. reflexivity.
Defined.

Lemma SabaFetch_no_dst_Err_witness :
  (exists b,
     fst (SabaFetch 0 "undefined" Stub.launched) = Some b
     /\ Err b = Some (errors_New "nil Response"))
  /\ (exists b,
        fst (SabaFetch 0 "fail()" Scene.silent) = Some b
        /\ fst (fst (SabaFetch_eval 0 "fail()" Scene.silent)) <> None
        /\ Err b = None).
Proof.
  split.
  - destruct (SabaFetch_no_dst_Err Stub.launched 0 "undefined") as (b & Hb & He).
    { vm_compute. reflexivity. }
    exists b. split; [exact Hb|]. rewrite He. vm_compute. reflexivity.
  - destruct (SabaFetch_no_dst_Err Scene.silent 0 "fail()") as (b & Hb & He).
    { vm_compute. reflexivity. }
    exists b. split; [exact Hb|]. split; [vm_compute; discriminate|].
    rewrite He. vm_compute. reflexivity.
Defined.

(** ** On the second scripted driver *)

#[local] Existing Instance Jar.driver.

Lemma GetCookies_open_witness :
  fst (GetCookies 0 (Jar.launched Jar.full))
    = ([ {| http.Name := "sid"; http.Value := "42"; http.Path := "/";
            http.Domain := "example.org"; http.Secure := true;
            http.HttpOnly := true |};
         {| http.Name := "theme"; http.Value := "dark"; http.Path := "/app";
            http.Domain := "example.org"; http.Secure := false;
            http.HttpOnly := false |} ], None)
  /\ fst (GetCookies 0 (Jar.launched Jar.broken))
     = ([], Some (errors_New "获取 cookies 失败: cookies unavailable")).
Proof.
  split.
  - rewrite (GetCookies_open (Jar.launched Jar.full) 0
               {| ID := 1; Browser := Some 1; Ctx := 1;
                  Cancel := Some (LaunchCancel 1 0); closed := false |})
      by (vm_compute; reflexivity).
    vm_compute. reflexivity.
  - rewrite (GetCookies_open (Jar.launched Jar.broken) 0
               {| ID := 1; Browser := Some 1; Ctx := 1;
                  Cancel := Some (LaunchCancel 1 0); closed := false |})
      by (vm_compute; reflexivity).
    vm_compute. reflexivity.
Defined.

Lemma Goto_hook_abort_witness :
  fst (Goto 0 "https://example.org" [Jar.hook_ok; Jar.hook_fails; Jar.hook_ok]
         (Jar.launched Jar.full))
    = Some Jar.hook_error
  /\ since (Jar.launched Jar.full)
       (snd (Goto 0 "https://example.org"
               [Jar.hook_ok; Jar.hook_fails; Jar.hook_ok] (Jar.launched Jar.full)))
     = [EvRun 1]
  /\ Stub.fresh (Jar.inner (drv
       (snd (Goto 0 "https://example.org"
               [Jar.hook_ok; Jar.hook_fails; Jar.hook_ok] (Jar.launched Jar.full)))))
     = 3.
Proof.
  pose proof (Goto_hook_abort (Jar.launched Jar.full) 0
                {| ID := 1; Browser := Some 1; Ctx := 1;
                   Cancel := Some (LaunchCancel 1 0); closed := false |}
                "https://example.org" [Jar.hook_ok] [Jar.hook_ok] Jar.hook_fails
                (drv (Jar.launched Jar.full))
                (snd (Jar.lift_result Stub.take (drv (Jar.launched Jar.full))))
                (snd (Jar.lift_result Stub.take (drv (Jar.launched Jar.full))))
                Jar.hook_error) as HG.
  cbn [app] in HG. rewrite HG by (vm_compute; reflexivity).
  repeat split; vm_compute; reflexivity.
Defined.

Lemma Goto_navigates_witness :
  fst (Goto 0 "https://example.org" [Jar.hook_ok; Jar.hook_ok]
         (Jar.launched Jar.full)) = None
  /\ since (Jar.launched Jar.full)
       (snd (Goto 0 "https://example.org" [Jar.hook_ok; Jar.hook_ok]
               (Jar.launched Jar.full)))
     = [EvRun 1; EvNavigate 1 "https://example.org"]
  /\ Stub.fresh (Jar.inner (drv
       (snd (Goto 0 "https://example.org" [Jar.hook_ok; Jar.hook_ok]
               (Jar.launched Jar.full)))))
     = 4.
Proof.
  pose proof (Goto_navigates (Jar.launched Jar.full) 0
                {| ID := 1; Browser := Some 1; Ctx := 1;
                   Cancel := Some (LaunchCancel 1 0); closed := false |}
                "https://example.org" [Jar.hook_ok; Jar.hook_ok]
                (drv (Jar.launched Jar.full))
                (snd (Jar.lift_result Stub.take
                   (snd (Jar.lift_result Stub.take (drv (Jar.launched Jar.full)))))))
    as HG.
  rewrite HG by (vm_compute; reflexivity).
  repeat split; vm_compute; reflexivity.
Defined.

Lemma Close_survives_cancel_failure_witness :
  fst (Closed 0 (snd (Close 0 (Jar.launched Jar.stubborn)))) = true
  /\ since (Jar.launched Jar.stubborn) (snd (Close 0 (Jar.launched Jar.stubborn)))
     = [ EvChromedpCancel 1;
         EvLog "Failed to cancel chromedp context for browser instance 1: context deadline exceeded";
         EvCancel 1; EvCancelAlloc 0;
         EvLog "Browser instance 1 has been closed" ]
  /\ Stub.releases (Jar.inner (drv (snd (Close 0 (Jar.launched Jar.stubborn)))))
     = [0].
Proof.
  destruct (Close_survives_cancel_failure (Jar.launched Jar.stubborn) 0
              {| ID := 1; Browser := Some 1; Ctx := 1;
                 Cancel := Some (LaunchCancel 1 0); closed := false |}
              (errors_New "context deadline exceeded"))
    as (Hc & Hd & Ht); try (vm_compute; reflexivity).
  split; [exact Hc|]. split.
  - rewrite Ht. vm_compute. reflexivity.
  - rewrite Hd. vm_compute. reflexivity.
Defined.

Lemma Goto_refused_witness :
  Goto 0 "https://example.org" [Jar.hook_ok]
    (outside (Jar.lift (Stub.finish 1)) (Jar.launched Jar.full))
  = (Some Stub.canceled,
     after (outside (Jar.lift (Stub.finish 1)) (Jar.launched Jar.full))
       (Jar.lift (Stub.finish 1) (drv (Jar.launched Jar.full))) [EvRun 1]).
Proof.
  apply (Goto_refused _ 0
           {| ID := 1; Browser := Some 1; Ctx := 1;
              Cancel := Some (LaunchCancel 1 0); closed := false |});
    vm_compute; reflexivity.
Defined.
